(** * Note Connections Analyzer: a shallow embedding of [src/main.ts]

    The plugin registers one ribbon action.  A click samples up to ten
    Markdown files of the vault, reads them, sends their text to a
    chat-completion endpoint and writes the answer into a new note.

    The host (vault, workspace, notices, console, network) is modelled as
    an explicit world that every step threads, together with a trace of
    the host calls made.  Exceptions and rejected promises are the left
    summand of the step result. *)

From Stdlib Require Import String Ascii List ZArith QArith Lia Bool Permutation.
From Stdlib Require Import Numbers.DecimalString.
From ExtLib Require Import Structures.Monad Structures.MonadState Structures.MonadExc.
Import ListNotations.
Import MonadNotation.

Local Close Scope Q_scope.
Local Open Scope string_scope.
Local Open Scope monad_scope.

Set Warnings "-register-all".

(* ===================================================================== *)
(** * Strings *)
(* ===================================================================== *)

Module Str.

Definition LF : string := String "010"%char EmptyString.
Definition DQUOTE : ascii := "034"%char.

(** [Number::toString] on a non-negative integer: its decimal digits. *)
Definition of_nat (n : nat) : string := NilZero.string_of_uint (Nat.to_uint n).

(** [Array.prototype.join]. *)
Definition join (sep : string) (parts : list string) : string :=
  String.concat sep parts.

(** [String.prototype.padStart] with the fill character [c]. *)
Fixpoint replicate (n : nat) (c : ascii) : string :=
  match n with
  | O => EmptyString
  | S k => String c (replicate k c)
  end.

Definition padStart (width : nat) (c : ascii) (s : string) : string :=
  replicate (width - String.length s) c ++ s.

(** [String.prototype.split] for a separator of one character: the pieces
    between the occurrences of [sep], at least one piece. *)
Fixpoint split (sep : ascii) (s : string) : list string :=
  match s with
  | EmptyString => [EmptyString]
  | String c rest =>
      if Ascii.eqb c sep then EmptyString :: split sep rest
      else match split sep rest with
           | [] => [String c EmptyString]
           | piece :: pieces => String c piece :: pieces
           end
  end.

(** Membership of a character in a string. *)
Fixpoint mem (c : ascii) (s : string) : bool :=
  match s with
  | EmptyString => false
  | String d rest => Ascii.eqb d c || mem c rest
  end.

End Str.

(* ===================================================================== *)
(** * The script engine: [Math.random] and [Array.prototype.sort] *)
(* ===================================================================== *)

(** The comparator handed to [sort] in [getRandomNotes] ignores its
    arguments and is not a consistent comparison, so the order that
    results is implementation-defined.  What ECMAScript still guarantees
    (SortIndexedProperties) is that the array holds the same elements
    afterwards.  An [Engine] packages a source of random numbers with a
    sort; [EngineOk] is that guarantee, and [insertion_engine] is a
    concrete engine that meets it. *)
Record Engine : Type := {
  rng : Type;
  Math_random : rng -> Q * rng;
  Array_sort :
    forall (A : Type), (A -> A -> rng -> Q * rng) -> list A -> rng -> list A * rng
}.

Arguments Array_sort e {A} cmp l g.

Record EngineOk (e : Engine) : Prop := {
  Math_random_range :
    forall g, (0 <= fst (Math_random e g))%Q /\ (fst (Math_random e g) < 1)%Q;
  Array_sort_perm :
    forall (A : Type) (cmp : A -> A -> rng e -> Q * rng e) (l : list A) (g : rng e),
      Permutation (fst (Array_sort e cmp l g)) l
}.

(** [Array.prototype.slice(start, end)] with integer arguments: negative
    positions count from the end of the array. *)
Definition Array_slice {A : Type} (l : list A) (start end_ : Z) : list A :=
  let len := Z.of_nat (List.length l) in
  let k := if (start <? 0)%Z then Z.max (len + start) 0 else Z.min start len in
  let final := if (end_ <? 0)%Z then Z.max (len + end_) 0 else Z.min end_ len in
  firstn (Z.to_nat (final - k)) (skipn (Z.to_nat k) l).

(** [Array.prototype.map] with the callback's index argument. *)
Fixpoint Array_mapi_from {A B : Type} (i : nat) (f : A -> nat -> B) (l : list A) : list B :=
  match l with
  | [] => []
  | x :: rest => f x i :: Array_mapi_from (S i) f rest
  end.

Definition Array_mapi {A B : Type} (f : A -> nat -> B) (l : list A) : list B :=
  Array_mapi_from 0 f l.

(** ** A concrete engine: insertion sort driven by a linear congruential
    generator *)

Module InsertionEngine.

Definition modulus : Z := 2147483648.

Definition next (g : Z) : Z := ((1103515245 * g + 12345) mod modulus)%Z.

Definition random (g : Z) : Q * Z := (Qmake (next g) (Z.to_pos modulus), next g).

(** Insert [x] before the first element that the comparator puts after it. *)
Fixpoint insert {A : Type} (cmp : A -> A -> Z -> Q * Z) (x : A) (l : list A) (g : Z)
  : list A * Z :=
  match l with
  | [] => ([x], g)
  | y :: rest =>
      let '(v, g1) := cmp x y g in
      if Qle_bool v 0 then (x :: y :: rest, g1)
      else let '(rest', g2) := insert cmp x rest g1 in (y :: rest', g2)
  end.

Fixpoint sort {A : Type} (cmp : A -> A -> Z -> Q * Z) (l : list A) (g : Z)
  : list A * Z :=
  match l with
  | [] => ([], g)
  | x :: rest => let '(sorted, g1) := sort cmp rest g in insert cmp x sorted g1
  end.

End InsertionEngine.

Definition insertion_engine : Engine := {|
  rng := Z;
  Math_random := InsertionEngine.random;
  Array_sort := @InsertionEngine.sort
|}.

(* ===================================================================== *)
(** * Values of the script: errors, JSON, promises *)
(* ===================================================================== *)

Record Error : Type := { name : string; message : string }.

(** [new Error(msg)]. *)
Definition new_Error (msg : string) : Error := {| name := "Error"; message := msg |}.

(** A settled promise: rejected with an error or fulfilled with a value. *)
Definition Promise (A : Type) : Type := (Error + A)%type.

(** [Promise.all]: fulfilled with all the values, in the order of the
    input, or rejected with a rejection of the input (here the first in
    the order of the input). *)
Fixpoint Promise_all {A : Type} (ps : list (Promise A)) : Promise (list A) :=
  match ps with
  | [] => inr []
  | inl e :: _ => inl e
  | inr a :: rest =>
      match Promise_all rest with
      | inl e => inl e
      | inr l => inr (a :: l)
      end
  end.

(** A value as [response.json()] yields it, and [undefined] for a property
    that is absent.  A number is carried by the text that
    [Number::toString] gives for it, which is all this program observes
    of a number. *)
Inductive JSValue : Type :=
| JUndefined
| JNull
| JBool (b : bool)
| JNum (text : string)
| JStr (s : string)
| JArr (items : list JSValue)
| JObj (props : list (string * JSValue)).

(** Own property [key] of an object literal. *)
Fixpoint assoc (key : string) (props : list (string * JSValue)) : option JSValue :=
  match props with
  | [] => None
  | (k, v) :: rest => if String.eqb k key then Some v else assoc key rest
  end.

(** The message of the engine for a property read on [undefined] or [null]. *)
Definition TypeError_read (base key : string) : Error :=
  {| name := "TypeError";
     message := "Cannot read properties of " ++ base ++ " (reading '" ++ key ++ "')" |}.

(** [v.key] for a key that no prototype defines ([choices], [message] and
    [content] are such): a [TypeError] on [undefined] and [null], the own
    property of an object, [length] of an array or a string, and
    [undefined] otherwise. *)
Definition Get (v : JSValue) (key : string) : Promise JSValue :=
  match v with
  | JUndefined => inl (TypeError_read "undefined" key)
  | JNull => inl (TypeError_read "null" key)
  | JObj props => inr (match assoc key props with Some x => x | None => JUndefined end)
  | JArr items =>
      inr (if String.eqb key "length" then JNum (Str.of_nat (List.length items))
           else JUndefined)
  | JStr s =>
      inr (if String.eqb key "length" then JNum (Str.of_nat (String.length s))
           else JUndefined)
  | JBool _ | JNum _ => inr JUndefined
  end.

(** [v[i]] for an integer index [i]. *)
Definition GetIndex (v : JSValue) (i : nat) : Promise JSValue :=
  match v with
  | JUndefined => inl (TypeError_read "undefined" (Str.of_nat i))
  | JNull => inl (TypeError_read "null" (Str.of_nat i))
  | JArr items => inr (nth i items JUndefined)
  | JStr s =>
      inr (match String.get i s with
           | Some c => JStr (String c EmptyString)
           | None => JUndefined
           end)
  | JObj props =>
      inr (match assoc (Str.of_nat i) props with Some x => x | None => JUndefined end)
  | JBool _ | JNum _ => inr JUndefined
  end.

(** The conversion to a string that a template literal applies. *)
Fixpoint ToString (v : JSValue) : string :=
  match v with
  | JUndefined => "undefined"
  | JNull => "null"
  | JBool b => if b then "true" else "false"
  | JNum text => text
  | JStr s => s
  | JArr items =>
      Str.join ","
        (map (fun x => match x with
                       | JUndefined | JNull => EmptyString
                       | _ => ToString x
                       end) items)
  | JObj _ => "[object Object]"
  end.

(** ** [JSON.stringify] *)

Definition hex_digit (n : nat) : ascii :=
  match n with
  | 0 => "0" | 1 => "1" | 2 => "2" | 3 => "3" | 4 => "4" | 5 => "5" | 6 => "6"
  | 7 => "7" | 8 => "8" | 9 => "9" | 10 => "a" | 11 => "b" | 12 => "c"
  | 13 => "d" | 14 => "e" | _ => "f"
  end%char.

(** QuoteJSONString, one character. *)
Definition escape_char (c : ascii) : string :=
  let n := nat_of_ascii c in
  if Ascii.eqb c Str.DQUOTE then String "\" (String Str.DQUOTE EmptyString)
  else if Ascii.eqb c "\" then "\\"
  else if Nat.eqb n 8 then "\b"
  else if Nat.eqb n 9 then "\t"
  else if Nat.eqb n 10 then "\n"
  else if Nat.eqb n 12 then "\f"
  else if Nat.eqb n 13 then "\r"
  else if Nat.ltb n 32 then
    "\u00" ++ String (hex_digit (n / 16)) (String (hex_digit (n mod 16)) EmptyString)
  else String c EmptyString.

Fixpoint escape (s : string) : string :=
  match s with
  | EmptyString => EmptyString
  | String c rest => escape_char c ++ escape rest
  end.

Definition quote (s : string) : string :=
  String Str.DQUOTE (escape s ++ String Str.DQUOTE EmptyString).

(** [None] is the [undefined] that [JSON.stringify(undefined)] returns; a
    property whose value is [undefined] is left out of an object, and an
    array prints it as [null]. *)
Fixpoint JSON_stringify (v : JSValue) : option string :=
  match v with
  | JUndefined => None
  | JNull => Some "null"
  | JBool b => Some (if b then "true" else "false")
  | JNum text => Some text
  | JStr s => Some (quote s)
  | JArr items =>
      Some ("[" ++ Str.join ","
                     (map (fun x => match JSON_stringify x with
                                    | Some t => t
                                    | None => "null"
                                    end) items) ++ "]")
  | JObj props =>
      Some ("{" ++ Str.join ","
                     (flat_map (fun kv => match JSON_stringify (snd kv) with
                                          | Some t => [quote (fst kv) ++ ":" ++ t]
                                          | None => []
                                          end) props) ++ "}")
  end.

(* ===================================================================== *)
(** * Dates *)
(* ===================================================================== *)

(** A time value by its UTC calendar fields, which is how
    [Date.prototype.toISOString] reads it. *)
Record Date : Type := {
  year : Z;
  month : nat;
  day : nat;
  hours : nat;
  minutes : nat;
  seconds : nat;
  milliseconds : nat
}.

Definition pad (width n : nat) : string := Str.padStart width "0" (Str.of_nat n).

(** Four digits for the years 0 to 9999, a sign and six digits otherwise. *)
Definition iso_year (y : Z) : string :=
  if ((0 <=? y) && (y <=? 9999))%Z then pad 4 (Z.to_nat y)
  else (if (y <? 0)%Z then "-" else "+") ++ pad 6 (Z.abs_nat y).

Definition iso_date (d : Date) : string :=
  iso_year (year d) ++ "-" ++ pad 2 (month d) ++ "-" ++ pad 2 (day d).

Definition toISOString (d : Date) : string :=
  iso_date d ++ "T" ++ pad 2 (hours d) ++ ":" ++ pad 2 (minutes d) ++ ":"
    ++ pad 2 (seconds d) ++ "." ++ pad 3 (milliseconds d) ++ "Z".

(** A date of the common era that the four-digit form can hold. *)
Definition calendar_date (d : Date) : bool :=
  ((0 <=? year d) && (year d <=? 9999))%Z
  && ((1 <=? month d) && (month d <=? 12) && (1 <=? day d) && (day d <=? 31))%nat.

(* ===================================================================== *)
(** * The host: vault, workspace, notices, console, network *)
(* ===================================================================== *)

(** The attributes of a vault file that the plugin and the host calls it
    makes use. *)
Record TFile : Type := { path : string; basename : string; extension : string }.

Definition last_piece (pieces : list string) : string := last pieces EmptyString.

(** The file that the host makes for a path: the name is what follows the
    last slash, the extension what follows the last dot of the name, the
    basename the name without it. *)
Definition TFile_of_path (p : string) : TFile :=
  let name := last_piece (Str.split "/" p) in
  let pieces := Str.split "." name in
  match pieces with
  | [] | [_] => {| path := p; basename := name; extension := EmptyString |}
  | _ => {| path := p;
            basename := Str.join "." (removelast pieces);
            extension := last_piece pieces |}
  end.

Record Request : Type := {
  url : string;
  method : string;
  headers : list (string * string);
  body : option string
}.

(** A response by its status and by what [response.json()] settles to. *)
Record Response : Type := {
  status : nat;
  json : Promise JSValue
}.

(** [response.ok]: the status is in the range 200 to 299. *)
Definition ok (r : Response) : bool :=
  ((200 <=? status r) && (status r <=? 299))%nat.

(** What this run does not decide: the clock, the answer of the network to
    a request, and the files whose read fails. *)
Record Host : Type := {
  now : Date;
  transport : Request -> Promise Response;
  read_fault : TFile -> option Error
}.

(** The calls made to the host, in the order they are made. *)
Inductive Event : Type :=
| EvGetMarkdownFiles
| EvRead (f : TFile)
| EvCreate (p : string) (data : string)
| EvOpen (f : TFile)
| EvNotice (msg : string)
| EvConsoleError (e : Error)
| EvFetch (req : Request).

Record MyPluginSettings : Type := { apiKey : string }.

Definition DEFAULT_SETTINGS : MyPluginSettings := {| apiKey := EmptyString |}.

(** The stored settings blob: absent, or an object that may lack the key. *)
Record SavedData : Type := { saved_apiKey : option string }.

(** [Object.assign({}, DEFAULT_SETTINGS, await this.loadData())]. *)
Definition loadSettings (data : option SavedData) : MyPluginSettings :=
  match data with
  | Some {| saved_apiKey := Some k |} => {| apiKey := k |}
  | _ => DEFAULT_SETTINGS
  end.

(** [!s] on a string. *)
Definition falsy (s : string) : bool := String.eqb s EmptyString.

Definition is_fetch (ev : Event) : bool :=
  match ev with EvFetch _ => true | _ => false end.

Definition is_create (ev : Event) : bool :=
  match ev with EvCreate _ _ => true | _ => false end.

Definition is_open (ev : Event) : bool :=
  match ev with EvOpen _ => true | _ => false end.

Definition is_notice (ev : Event) : bool :=
  match ev with EvNotice _ => true | _ => false end.

Definition is_console (ev : Event) : bool :=
  match ev with EvConsoleError _ => true | _ => false end.

Definition count_events (p : Event -> bool) (tr : list Event) : nat :=
  List.length (filter p tr).

(* ===================================================================== *)
(** * The plugin *)
(* ===================================================================== *)

Section Plugin.

Variable E : Engine.
Variable host : Host.

(** The state a run reads and writes: the files of the vault with their
    text, the plugin's settings, the state of the random source, and the
    trace of host calls. *)
Record World : Type := {
  vault : list (TFile * string);
  settings : MyPluginSettings;
  seed : rng E;
  trace : list Event
}.

Definition set_vault (v : list (TFile * string)) (w : World) : World :=
  {| vault := v; settings := settings w; seed := seed w; trace := trace w |}.

Definition set_seed (g : rng E) (w : World) : World :=
  {| vault := vault w; settings := settings w; seed := g; trace := trace w |}.

Definition set_trace (tr : list Event) (w : World) : World :=
  {| vault := vault w; settings := settings w; seed := seed w; trace := tr |}.

(** A step either throws or returns, and leaves a world. *)
Definition Run (A : Type) : Type := World -> (Error + A) * World.

#[local] Instance Monad_Run : Monad Run := {|
  ret := fun _ a w => (inr a, w);
  bind := fun _ _ c k w =>
    match c w with
    | (inl e, w') => (inl e, w')
    | (inr a, w') => k a w'
    end
|}.

#[local] Instance MonadExc_Run : MonadExc Error Run := {|
  raise := fun _ e w => (inl e, w);
  catch := fun _ c handler w =>
    match c w with
    | (inl e, w') => handler e w'
    | (inr a, w') => (inr a, w')
    end
|}.

#[local] Instance MonadState_Run : MonadState World Run := {|
  get := fun w => (inr w, w);
  put := fun w' _ => (inr tt, w')
|}.

(** [await p]. *)
Definition await {A : Type} (p : Promise A) : Run A :=
  match p with
  | inl e => raise e
  | inr a => ret a
  end.

Fixpoint mapM {A B : Type} (f : A -> Run B) (l : list A) : Run (list B) :=
  match l with
  | [] => ret []
  | x :: rest => y <- f x ;; ys <- mapM f rest ;; ret (y :: ys)
  end.

(** ** Host calls *)

Definition log (ev : Event) : Run unit :=
  w <- get ;; put (set_trace (trace w ++ [ev]) w).

Definition Notice (msg : string) : Run unit := log (EvNotice msg).

Definition console_error (e : Error) : Run unit := log (EvConsoleError e).

Definition markdown_files (v : list (TFile * string)) : list TFile :=
  filter (fun f => String.eqb (extension f) "md") (map fst v).

Definition getMarkdownFiles : Run (list TFile) :=
  log EvGetMarkdownFiles ;;
  w <- get ;;
  ret (markdown_files (vault w)).

(** What a read of [f] settles to: the fault of the host for this file,
    or the text stored at its path. *)
Definition read_outcome (v : list (TFile * string)) (f : TFile) : Promise string :=
  match read_fault host f with
  | Some e => inl e
  | None =>
      match find (fun entry => String.eqb (path (fst entry)) (path f)) v with
      | Some entry => inr (snd entry)
      | None => inl (new_Error "File not found.")
      end
  end.

Definition vault_read (f : TFile) : Run (Promise string) :=
  log (EvRead f) ;;
  w <- get ;;
  ret (read_outcome (vault w) f).

Definition vault_create (p data : string) : Run (Promise TFile) :=
  log (EvCreate p data) ;;
  w <- get ;;
  if existsb (fun entry => String.eqb (path (fst entry)) p) (vault w)
  then ret (inl (new_Error "File already exists."))
  else
    let f := TFile_of_path p in
    put (set_vault (vault w ++ [(f, data)]) w) ;;
    ret (inr f).

Definition openFile (f : TFile) : Run (Promise unit) :=
  log (EvOpen f) ;; ret (inr tt).

Definition fetch (req : Request) : Run (Promise Response) :=
  log (EvFetch req) ;; ret (transport host req).

(** ** [getRandomNotes] *)

(** [() => 0.5 - Math.random()]. *)
Definition random_order (_ _ : TFile) (g : rng E) : Q * rng E :=
  let '(r, g') := Math_random E g in ((1 # 2) - r, g')%Q.

(** [files.sort(cmp)] sorts the array in place and returns it: [shuffled]
    and [files] are one array afterwards. *)
Definition sort_in_place (files : list TFile) : Run (list TFile) :=
  w <- get ;;
  let '(shuffled, g) := Array_sort E random_order files (seed w) in
  put (set_seed g w) ;;
  ret shuffled.

Definition getRandomNotes (count : Z) : Run (list TFile) :=
  files <- getMarkdownFiles ;;
  shuffled <- sort_in_place files ;;
  let files := shuffled in
  ret (Array_slice shuffled 0 (Z.min count (Z.of_nat (List.length files)))).

(** ** [analyzeWithGPT4] *)

Definition PROMPT_INTRO : string :=
     "I am sending you ten random notes from my knowledge database. "
  ++ "Your goal is to extract and identify novel, unconventional, and "
  ++ "interesting connections between the ideas presented in the notes. "
  ++ "These connections should be concise yet insightful and challenge "
  ++ "conventional thinking, revealing patterns, relationships, or "
  ++ "implications I may not have noticed. Avoid generic or obvious "
  ++ "observations and focus on linking the ideas in ways that are "
  ++ "intellectually stimulating and potentially actionable. Provide a "
  ++ "summary of your findings, highlighting the most unique and "
  ++ "valuable insights.".

(** The text of the template before the notes. *)
Definition PROMPT_HEAD : string :=
  PROMPT_INTRO ++ Str.LF ++ "Notes:" ++ Str.LF ++ Str.LF.

(** [`Note ${i + 1}:\n${content}\n---`]. *)
Definition note_block (content : string) (i : nat) : string :=
  "Note " ++ Str.of_nat (i + 1) ++ ":" ++ Str.LF ++ content ++ Str.LF ++ "---".

(** The constant [prompt] of [analyzeWithGPT4]. *)
Definition prompt (noteContents : list string) : string :=
  PROMPT_HEAD ++ Str.join Str.LF (Array_mapi note_block noteContents).

Definition ENDPOINT : string := "https://api.openai.com/v1/chat/completions".

Definition request_payload (content : string) : JSValue :=
  JObj [ ("model", JStr "gpt-4");
         ("messages", JArr [ JObj [ ("role", JStr "user"); ("content", JStr content) ] ]);
         ("temperature", JNum "0.7") ].

Definition completion_request (key content : string) : Request :=
  {| url := ENDPOINT;
     method := "POST";
     headers := [ ("Authorization", "Bearer " ++ key);
                  ("Content-Type", "application/json") ];
     body := JSON_stringify (request_payload content) |}.

Definition REQUEST_FAILED : Error := new_Error "Failed to get response from GPT-4".

(** The declared result is a string; what is returned is whatever value
    the property read gives. *)
Definition analyzeWithGPT4 (noteContents : list string) : Run JSValue :=
  let prompt := prompt noteContents in
  w <- get ;;
  pending <- fetch (completion_request (apiKey (settings w)) prompt) ;;
  response <- await pending ;;
  if negb (ok response) then raise REQUEST_FAILED
  else
    data <- await (json response) ;;
    choices <- await (Get data "choices") ;;
    choice <- await (GetIndex choices 0) ;;
    msg <- await (Get choice "message") ;;
    await (Get msg "content").

(** ** [formatAnalysis] *)

Definition formatAnalysis (files : list TFile) (analysis : JSValue) : string :=
  "# Note Connections Analysis" ++ Str.LF
  ++ Str.LF
  ++ "## Analyzed Notes" ++ Str.LF
  ++ Str.join Str.LF (map (fun file => "- [[" ++ basename file ++ "]]") files) ++ Str.LF
  ++ Str.LF
  ++ "## Analysis" ++ Str.LF
  ++ ToString analysis ++ Str.LF.

(** ** The ribbon action *)

Definition KEY_NOTICE : string := "Please set your OpenAI API key in the plugin settings".

Definition NO_NOTES_NOTICE : string := "No notes found in vault".

(** [`Analyzing ${notes.length} notes...`]. *)
Definition analyzing_notice (n : nat) : string :=
  "Analyzing " ++ Str.of_nat n ++ " notes...".

(** [`Error: ${error.message}`]. *)
Definition error_notice (error : Error) : string := "Error: " ++ message error.

(** [array[0]], printed by a template literal. *)
Definition first_piece (pieces : list string) : string :=
  match pieces with
  | [] => "undefined"
  | piece :: _ => piece
  end.

(** [`Note Connections Analysis ${new Date().toISOString().split('T')[0]}.md`]. *)
Definition analysis_path (d : Date) : string :=
  "Note Connections Analysis " ++ first_piece (Str.split "T" (toISOString d)) ++ ".md".

(** The body of the [try] block of the ribbon callback. *)
Definition analysis_run : Run unit :=
  w <- get ;;
  if falsy (apiKey (settings w)) then Notice KEY_NOTICE
  else
    notes <- getRandomNotes 10 ;;
    if Nat.eqb (List.length notes) 0 then Notice NO_NOTES_NOTICE
    else
      Notice (analyzing_notice (List.length notes)) ;;
      reads <- mapM vault_read notes ;;
      noteContents <- await (Promise_all reads) ;;
      response <- analyzeWithGPT4 noteContents ;;
      created <- vault_create (analysis_path (now host)) (formatAnalysis notes response) ;;
      analysisNote <- await created ;;
      opened <- openFile analysisNote ;;
      await opened.

(** The callback registered by [addRibbonIcon]: the [try] block with its
    [catch] clause. *)
Definition onRibbonClick : Run unit :=
  catch analysis_run
    (fun error => Notice (error_notice error) ;; console_error error).

End Plugin.

Arguments vault {E} w.
Arguments settings {E} w.
Arguments seed {E} w.
Arguments trace {E} w.

(* ===================================================================== *)
(** * Vocabulary of the properties *)
(* ===================================================================== *)

(** The offset in the prompt at which the block of note [i] starts: after
    the head of the template and, for each earlier block, the block and
    the line feed that follows it. *)
Definition block_start (noteContents : list string) (i : nat) : nat :=
  String.length PROMPT_HEAD
  + list_sum (map (fun b => S (String.length b))
                  (firstn i (Array_mapi note_block noteContents))).

(** The label that heads the block of the note at position [i] (from 0). *)
Definition note_label (i : nat) : string := "Note " ++ Str.of_nat (i + 1) ++ ":".

(** The report as the specification words it: a heading, one bullet line
    per title in order, a second heading, the analysis text as it is. *)
Definition bullet (title : string) : string := "- [[" ++ title ++ "]]".

Fixpoint bullet_lines (titles : list string) : string :=
  match titles with
  | [] => EmptyString
  | [title] => bullet title
  | title :: rest => bullet title ++ Str.LF ++ bullet_lines rest
  end.

Definition report_template (titles : list string) (analysis : string) : string :=
  "# Note Connections Analysis" ++ Str.LF
  ++ Str.LF
  ++ "## Analyzed Notes" ++ Str.LF
  ++ bullet_lines titles ++ Str.LF
  ++ Str.LF
  ++ "## Analysis" ++ Str.LF
  ++ analysis ++ Str.LF.

(** [choices[0].message.content] of a response body that has the shape of
    a chat completion: an object whose [choices] is an array that starts
    with an object whose [message] is an object. *)
Definition first_choice_content (data : JSValue) : option JSValue :=
  match data with
  | JObj props =>
      match assoc "choices" props with
      | Some (JArr (JObj choice :: _)) =>
          match assoc "message" choice with
          | Some (JObj msg) => assoc "content" msg
          | _ => None
          end
      | _ => None
      end
  | _ => None
  end.

(** What the reads of [data.choices[0].message.content] yield: the value
    of the last read, or the error of the first read that throws. *)
Definition read_content (data : JSValue) : Promise JSValue :=
  match Get data "choices" with
  | inl e => inl e
  | inr choices =>
      match GetIndex choices 0 with
      | inl e => inl e
      | inr choice =>
          match Get choice "message" with
          | inl e => inl e
          | inr msg => Get msg "content"
          end
      end
  end.

(** What [analyzeWithGPT4] settles to for a key and note texts, by the
    answer of the transport to its request. *)
Definition reply (host : Host) (key : string) (noteContents : list string)
  : Promise JSValue :=
  match transport host (completion_request key (prompt noteContents)) with
  | inl e => inl e
  | inr response =>
      if ok response then
        match json response with
        | inl e => inl e
        | inr data => read_content data
        end
      else inl REQUEST_FAILED
  end.

(** The notes that a run samples from a world, and the state in which
    the sort leaves the random source. *)
Definition shuffled_files (E : Engine) (w : World E) : list TFile * rng E :=
  Array_sort E (random_order E) (markdown_files (vault w)) (seed w).

Definition sampled (E : Engine) (count : Z) (w : World E) : list TFile :=
  let shuffled := fst (shuffled_files E w) in
  Array_slice shuffled 0 (Z.min count (Z.of_nat (List.length shuffled))).

Definition seed_after (E : Engine) (w : World E) : rng E := snd (shuffled_files E w).

(** The world that a run leaves: the vault and the state of the random
    source by then, and the events it added to the trace. *)
Definition world_after {E : Engine} (w : World E) (v : list (TFile * string))
           (g : rng E) (evs : list Event) : World E :=
  {| vault := v; settings := settings w; seed := g; trace := trace w ++ evs |}.

(** What the [catch] clause of the run does with an error. *)
Definition failure_events (e : Error) : list Event :=
  [EvNotice (error_notice e); EvConsoleError e].

(** Reading a JSON string back (RFC 8259, section 7), for characters of
    one byte: the text between the quotes of a string literal gives the
    string it denotes, or nothing when it is not well formed. *)
Definition in_quotes (s : string) : string :=
  String Str.DQUOTE (s ++ String Str.DQUOTE EmptyString).

Definition hex_value (c : ascii) : option nat :=
  let n := nat_of_ascii c in
  if ((48 <=? n) && (n <=? 57))%nat then Some (n - 48)
  else if ((97 <=? n) && (n <=? 102))%nat then Some (n - 87)
  else if ((65 <=? n) && (n <=? 70))%nat then Some (n - 55)
  else None.

Fixpoint unescape (s : string) : option string :=
  match s with
  | EmptyString => Some EmptyString
  | String c rest =>
      if Ascii.eqb c "\" then
        match rest with
        | EmptyString => None
        | String d rest' =>
            if Ascii.eqb d Str.DQUOTE then option_map (String Str.DQUOTE) (unescape rest')
            else if Ascii.eqb d "\" then option_map (String "\") (unescape rest')
            else if Ascii.eqb d "/" then option_map (String "/") (unescape rest')
            else if Ascii.eqb d "b" then option_map (String "008") (unescape rest')
            else if Ascii.eqb d "t" then option_map (String "009") (unescape rest')
            else if Ascii.eqb d "n" then option_map (String "010") (unescape rest')
            else if Ascii.eqb d "f" then option_map (String "012") (unescape rest')
            else if Ascii.eqb d "r" then option_map (String "013") (unescape rest')
            else if Ascii.eqb d "u" then
              match rest' with
              | String h1 (String h2 (String h3 (String h4 rest4))) =>
                  match hex_value h1, hex_value h2, hex_value h3, hex_value h4 with
                  | Some a, Some b, Some c', Some d' =>
                      let code := ((a * 16 + b) * 16 + c') * 16 + d' in
                      if (code <? 256)%nat
                      then option_map (String (ascii_of_nat code)) (unescape rest4)
                      else None
                  | _, _, _, _ => None
                  end
              | _ => None
              end
            else None
        end
      else if Ascii.eqb c Str.DQUOTE || (nat_of_ascii c <? 32)%nat then None
      else option_map (String c) (unescape rest)
  end.

(** The form YYYY-MM-DD: four digits, a hyphen, two digits, a hyphen, two
    digits. *)
Definition is_digit (c : ascii) : bool :=
  let n := nat_of_ascii c in ((48 <=? n) && (n <=? 57))%nat.

Definition four_digits (s : string) : bool :=
  match s with
  | String a (String b (String c (String d EmptyString))) =>
      is_digit a && is_digit b && is_digit c && is_digit d
  | _ => false
  end.

Definition two_digits (s : string) : bool :=
  match s with
  | String a (String b EmptyString) => is_digit a && is_digit b
  | _ => false
  end.

Definition yyyy_mm_dd (s : string) : bool :=
  match s with
  | String y1 (String y2 (String y3 (String y4 (String h1
      (String m1 (String m2 (String h2 (String d1 (String d2 EmptyString))))))))) =>
      four_digits (String y1 (String y2 (String y3 (String y4 EmptyString))))
      && Ascii.eqb h1 "-"
      && two_digits (String m1 (String m2 EmptyString))
      && Ascii.eqb h2 "-"
      && two_digits (String d1 (String d2 EmptyString))
  | _ => false
  end.

(** The decimal text of the number that a little-endian numeral denotes,
    padded, and a check of the texts of [k] successive numbers from it. *)
Definition pad_little (width : nat) (d : Decimal.uint) : string :=
  Str.padStart width "0" (NilZero.string_of_uint (Decimal.rev d)).

Fixpoint check_from (ok_text : string -> bool) (width k : nat) (d : Decimal.uint) : bool :=
  match k with
  | O => true
  | S k' => ok_text (pad_little width d) && check_from ok_text width k' (Decimal.Little.succ d)
  end.

(** [undefined] and [null], on which a property read throws. *)
Definition nullish (v : JSValue) : bool :=
  match v with
  | JUndefined | JNull => true
  | _ => false
  end.

(** Whether a read on the way to [choices[0].message.content] throws: the
    body, its [choices], the first choice or its [message] is [undefined]
    or [null]. *)
Definition content_read_throws (data : JSValue) : bool :=
  nullish data
  || match Get data "choices" with
     | inl _ => true
     | inr choices =>
         nullish choices
         || match GetIndex choices 0 with
            | inl _ => true
            | inr choice =>
                nullish choice
                || match Get choice "message" with
                   | inl _ => true
                   | inr msg => nullish msg
                   end
            end
     end.

(** A step of a run throws [e] before the report is created: a read of a
    note is rejected, the request is rejected or answered with a status
    that is not a success, the body of the answer is not JSON, or a read
    on the way to [choices[0].message.content] throws. *)
Inductive StepFails (host : Host) (key : string) (v : list (TFile * string))
          (notes : list TFile) : Error -> Prop :=
| ReadRejected (e : Error) :
    Promise_all (map (read_outcome host v) notes) = inl e ->
    StepFails host key v notes e
| RequestRejected (noteContents : list string) (e : Error) :
    Promise_all (map (read_outcome host v) notes) = inr noteContents ->
    transport host (completion_request key (prompt noteContents)) = inl e ->
    StepFails host key v notes e
| StatusNotOk (noteContents : list string) (response : Response) :
    Promise_all (map (read_outcome host v) notes) = inr noteContents ->
    transport host (completion_request key (prompt noteContents)) = inr response ->
    ok response = false ->
    StepFails host key v notes (new_Error "Failed to get response from GPT-4")
| BodyNotJson (noteContents : list string) (response : Response) (e : Error) :
    Promise_all (map (read_outcome host v) notes) = inr noteContents ->
    transport host (completion_request key (prompt noteContents)) = inr response ->
    ok response = true ->
    json response = inl e ->
    StepFails host key v notes e
| ContentReadThrows (noteContents : list string) (response : Response)
                    (data : JSValue) (e : Error) :
    Promise_all (map (read_outcome host v) notes) = inr noteContents ->
    transport host (completion_request key (prompt noteContents)) = inr response ->
    ok response = true ->
    json response = inr data ->
    read_content data = inl e ->
    StepFails host key v notes e.

(* ===================================================================== *)
(** * Sample hosts and worlds *)
(* ===================================================================== *)

Module Sample.

Definition clock : Date :=
  {| year := 2026; month := 11; day := 2;
     hours := 9; minutes := 5; seconds := 7; milliseconds := 42 |}.

(** The body of a chat completion whose text is [text]. *)
Definition completion (text : string) : JSValue :=
  JObj [ ("id", JStr "chatcmpl-1");
         ("choices",
          JArr [ JObj [ ("index", JNum "0");
                        ("message", JObj [ ("role", JStr "assistant");
                                           ("content", JStr text) ]) ] ]) ].

(** A completion whose message has no [content]. *)
Definition bare_completion : JSValue :=
  JObj [ ("choices", JArr [ JObj [ ("message", JObj [ ("role", JStr "assistant") ]) ] ]) ].

(** A body without [choices], as the endpoint sends with an error. *)
Definition error_body : JSValue :=
  JObj [ ("error", JObj [ ("message", JStr "overloaded") ]) ].

Definition answering (code : nat) (data : JSValue) : Host :=
  {| now := clock;
     transport := fun _ => inr {| status := code; json := inr data |};
     read_fault := fun _ => None |}.

Definition host : Host := answering 200 (completion "Z").

Definition files : list (TFile * string) :=
  [ (TFile_of_path "A.md", "alpha");
    (TFile_of_path "notes/B.md", "beta");
    (TFile_of_path "C.md", EmptyString);
    (TFile_of_path "picture.png", "binary") ].

Definition world (key : string) (v : list (TFile * string)) : World insertion_engine :=
  Build_World insertion_engine v {| apiKey := key |} 1%Z [].

End Sample.

(* ===================================================================== *)
(** * The settings: their store and their tab *)
(* ===================================================================== *)

Definition set_settings {E : Engine} (s : MyPluginSettings) (w : World E) : World E :=
  {| vault := vault w; settings := s; seed := seed w; trace := trace w |}.

(** The plugin instance: the world of its runs and the blob that
    [saveData] last stored for it ([loadData] yields it, [None] before the
    first save). *)
Record PluginInstance (E : Engine) : Type := {
  world : World E;
  data : option SavedData
}.

Arguments world {E} p.
Arguments data {E} p.

(** [saveSettings]: [await this.saveData(this.settings)]. *)
Definition saveSettings {E : Engine} (p : PluginInstance E) : PluginInstance E :=
  {| world := world p;
     data := Some {| saved_apiKey := Some (apiKey (settings (world p))) |} |}.

(** What [onload] does to the state of the instance:
    [await this.loadSettings()].  The icon and the tab that it registers are
    the callbacks [onRibbonClick] and [display]. *)
Definition onload {E : Engine} (p : PluginInstance E) : PluginInstance E :=
  {| world := set_settings (loadSettings (data p)) (world p); data := data p |}.

(** The [onChange] handler of the text field:
    [this.plugin.settings.apiKey = value; await this.plugin.saveSettings()]. *)
Definition onChange {E : Engine} (value : string) (p : PluginInstance E) : PluginInstance E :=
  saveSettings {| world := set_settings {| apiKey := value |} (world p); data := data p |}.

(** A [Setting] with a text field, as [display] builds it. *)
Record TextSetting : Type := {
  setting_name : string;
  setting_desc : string;
  placeholder : string;
  field_value : string
}.

(** [display]: the container is emptied, then the one setting is added. *)
Definition display {E : Engine} (p : PluginInstance E) (containerEl : list TextSetting)
  : list TextSetting :=
  let emptied : list TextSetting := [] in
  (emptied ++ [ {| setting_name := "OpenAI API Key";
                   setting_desc := "Enter your OpenAI API key for GPT-4 access";
                   placeholder := "sk-...";
                   field_value := apiKey (settings (world p)) |} ])%list.

(** The ribbon action on the instance. *)
Definition click {E : Engine} (host : Host) (p : PluginInstance E) : PluginInstance E :=
  {| world := snd (onRibbonClick E host (world p)); data := data p |}.

(* ===================================================================== *)
(** * Vocabulary of the further properties *)
(* ===================================================================== *)

Definition is_read (ev : Event) : bool :=
  match ev with EvRead _ => true | _ => false end.

(** The values that a template literal converts to a string without a
    throw.  An object that [response.json()] yields with an own property
    [toString] has a value there that cannot be called, and its conversion
    throws a [TypeError]; so does the conversion of an array that holds
    such an object, since the array's [join] converts its elements.  On
    every other value [ToString] is what the conversion yields. *)
Fixpoint converts (v : JSValue) : bool :=
  match v with
  | JObj props =>
      match assoc "toString" props with
      | Some _ => false
      | None => true
      end
  | JArr items => forallb converts items
  | _ => true
  end.

(** The ways a click ends: the result it returns and the world it leaves. *)
Inductive ClickOutcome (E : Engine) (host : Host) (w : World E)
  : (Error + unit) * World E -> Prop :=
| NoKey :
    falsy (apiKey (settings w)) = true ->
    ClickOutcome E host w
      (inr tt, world_after w (vault w) (seed w) [EvNotice KEY_NOTICE])
| NoNotes :
    falsy (apiKey (settings w)) = false ->
    sampled E 10 w = [] ->
    ClickOutcome E host w
      (inr tt, world_after w (vault w) (seed_after E w)
                 [EvGetMarkdownFiles; EvNotice NO_NOTES_NOTICE])
| ReadFailed (e : Error) :
    falsy (apiKey (settings w)) = false ->
    sampled E 10 w <> [] ->
    Promise_all (map (read_outcome host (vault w)) (sampled E 10 w)) = inl e ->
    ClickOutcome E host w
      (inr tt, world_after w (vault w) (seed_after E w)
                 ([EvGetMarkdownFiles;
                   EvNotice (analyzing_notice (List.length (sampled E 10 w)))]
                  ++ map EvRead (sampled E 10 w) ++ failure_events e))
| ReplyFailed (noteContents : list string) (e : Error) :
    falsy (apiKey (settings w)) = false ->
    sampled E 10 w <> [] ->
    Promise_all (map (read_outcome host (vault w)) (sampled E 10 w)) = inr noteContents ->
    reply host (apiKey (settings w)) noteContents = inl e ->
    ClickOutcome E host w
      (inr tt, world_after w (vault w) (seed_after E w)
                 ([EvGetMarkdownFiles;
                   EvNotice (analyzing_notice (List.length (sampled E 10 w)))]
                  ++ map EvRead (sampled E 10 w)
                  ++ EvFetch (completion_request (apiKey (settings w)) (prompt noteContents))
                  :: failure_events e))
| NameTaken (noteContents : list string) (analysis : JSValue) :
    falsy (apiKey (settings w)) = false ->
    sampled E 10 w <> [] ->
    Promise_all (map (read_outcome host (vault w)) (sampled E 10 w)) = inr noteContents ->
    reply host (apiKey (settings w)) noteContents = inr analysis ->
    existsb (fun entry => String.eqb (path (fst entry)) (analysis_path (now host))) (vault w)
    = true ->
    ClickOutcome E host w
      (inr tt, world_after w (vault w) (seed_after E w)
                 ([EvGetMarkdownFiles;
                   EvNotice (analyzing_notice (List.length (sampled E 10 w)))]
                  ++ map EvRead (sampled E 10 w)
                  ++ EvFetch (completion_request (apiKey (settings w)) (prompt noteContents))
                  :: EvCreate (analysis_path (now host))
                              (formatAnalysis (sampled E 10 w) analysis)
                  :: failure_events (new_Error "File already exists.")))
| Written (noteContents : list string) (analysis : JSValue) :
    falsy (apiKey (settings w)) = false ->
    sampled E 10 w <> [] ->
    Promise_all (map (read_outcome host (vault w)) (sampled E 10 w)) = inr noteContents ->
    reply host (apiKey (settings w)) noteContents = inr analysis ->
    existsb (fun entry => String.eqb (path (fst entry)) (analysis_path (now host))) (vault w)
    = false ->
    ClickOutcome E host w
      (inr tt, world_after w
                 (vault w ++ [(TFile_of_path (analysis_path (now host)),
                               formatAnalysis (sampled E 10 w) analysis)])
                 (seed_after E w)
                 ([EvGetMarkdownFiles;
                   EvNotice (analyzing_notice (List.length (sampled E 10 w)))]
                  ++ map EvRead (sampled E 10 w)
                  ++ [ EvFetch (completion_request (apiKey (settings w)) (prompt noteContents));
                       EvCreate (analysis_path (now host))
                                (formatAnalysis (sampled E 10 w) analysis);
                       EvOpen (TFile_of_path (analysis_path (now host))) ])).

(** A request without its Authorization header, and a trace in which every
    request is shown so. *)
Definition without_authorization (req : Request) : Request :=
  {| url := url req;
     method := method req;
     headers := filter (fun h => negb (String.eqb (fst h) "Authorization")) (headers req);
     body := body req |}.

Definition redact (ev : Event) : Event :=
  match ev with
  | EvFetch req => EvFetch (without_authorization req)
  | _ => ev
  end.

(** Two clocks on the same UTC day. *)
Definition same_day (d1 d2 : Date) : Prop :=
  year d1 = year d2 /\ month d1 = month d2 /\ day d1 = day d2.

(** The text that a body smuggles a second note with. *)
Definition forged_note (a b : string) : string :=
  a ++ Str.LF ++ "---" ++ Str.LF ++ "Note 2:" ++ Str.LF ++ b.

Module SampleFaults.

(** A host on which the read of [notes/B.md] fails. *)
Definition unreadable : Host :=
  {| now := Sample.clock;
     transport := fun _ => inr {| status := 200; json := inr (Sample.completion "Z") |};
     read_fault := fun f =>
       if String.eqb (path f) "notes/B.md" then Some (new_Error "EACCES") else None |}.

(** The same day as [Sample.clock], in the evening. *)
Definition evening : Date :=
  {| year := 2026; month := 11; day := 2;
     hours := 21; minutes := 30; seconds := 0; milliseconds := 0 |}.

Definition evening_host : Host :=
  {| now := evening;
     transport := fun _ => inr {| status := 200; json := inr (Sample.completion "again") |};
     read_fault := fun _ => None |}.

Definition instance (key : string) : PluginInstance insertion_engine :=
  {| world := Sample.world key Sample.files; data := None |}.

End SampleFaults.

(* ===================================================================== *)
(** * The concrete engine meets the contract *)
(* ===================================================================== *)

Lemma insert_perm {A : Type} (cmp : A -> A -> Z -> Q * Z) (x : A) (l : list A) (g : Z) :
  Permutation (fst (InsertionEngine.insert cmp x l g)) (x :: l).
Proof.
  revert g. induction l as [|y rest IH]; intros g; simpl.
  - apply Permutation_refl.
  - destruct (cmp x y g) as [v g1].
    destruct (Qle_bool v 0); simpl.
    + apply Permutation_refl.
    + specialize (IH g1).
      destruct (InsertionEngine.insert cmp x rest g1) as [rest' g2]. simpl in *.
      eapply Permutation_trans; [apply perm_skip, IH | apply perm_swap].
Qed.

Lemma sort_perm {A : Type} (cmp : A -> A -> Z -> Q * Z) (l : list A) (g : Z) :
  Permutation (fst (InsertionEngine.sort cmp l g)) l.
Proof.
  revert g. induction l as [|x rest IH]; intros g; simpl.
  - apply perm_nil.
  - specialize (IH g).
    destruct (InsertionEngine.sort cmp rest g) as [sorted g1]. simpl in IH.
    eapply Permutation_trans; [apply insert_perm | apply perm_skip, IH].
Qed.

Lemma next_range (g : Z) : (0 <= InsertionEngine.next g < InsertionEngine.modulus)%Z.
Proof. unfold InsertionEngine.next. apply Z.mod_pos_bound. reflexivity. Qed.

Lemma insertion_engine_ok : EngineOk insertion_engine.
Proof.
  split.
  - intros g. pose proof (next_range g) as [Hlo Hhi].
    unfold InsertionEngine.modulus in Hhi.
    simpl. unfold InsertionEngine.random, Qle, Qlt. simpl. lia.
  - intros A cmp l g. apply sort_perm.
Qed.

(* ===================================================================== *)
(** * The sampler *)
(* ===================================================================== *)

Lemma Array_slice_head {A : Type} (l : list A) (n : Z) :
  (0 <= n)%Z ->
  Array_slice l 0 n = firstn (Z.to_nat (Z.min n (Z.of_nat (List.length l)))) l.
Proof.
  intros Hn. unfold Array_slice.
  destruct (Z.ltb_spec n 0) as [Hneg|_]; [lia|].
  simpl (0 <? 0)%Z. cbv iota.
  replace (Z.min 0 (Z.of_nat (List.length l))) with 0%Z by lia.
  rewrite Z.sub_0_r. reflexivity.
Qed.

Lemma firstn_perm_rest {A : Type} (n : nat) (shuffled files : list A) :
  Permutation shuffled files ->
  Permutation (firstn n shuffled ++ skipn n shuffled) files.
Proof. intros H. rewrite firstn_skipn. exact H. Qed.

Lemma NoDup_app_left {A : Type} (l r : list A) : NoDup (l ++ r) -> NoDup l.
Proof.
  induction l as [|x l IH]; simpl; intros H.
  - constructor.
  - inversion H as [|y ys Hnotin Hnodup]; subst. constructor.
    + intros Hin. apply Hnotin, in_or_app. left. exact Hin.
    + apply IH. exact Hnodup.
Qed.

(** What [getRandomNotes] returns, and the world it leaves. *)
Lemma getRandomNotes_run (E : Engine) (count : Z) (w : World E) :
  getRandomNotes E count w
  = (inr (sampled E count w),
     world_after w (vault w) (seed_after E w) [EvGetMarkdownFiles]).
Proof.
  unfold sampled, seed_after, shuffled_files, world_after.
  unfold getRandomNotes, getMarkdownFiles, sort_in_place, log, markdown_files. cbn.
  destruct (Array_sort E _ _ _) as [shuffled g].
  reflexivity.
Qed.

(** The sample is the head of a rearrangement of the listed files. *)
Lemma sampled_spec (E : Engine) (w : World E) (count : Z) :
  EngineOk E ->
  (0 <= count)%Z ->
  Z.of_nat (List.length (sampled E count w))
  = Z.min count (Z.of_nat (List.length (markdown_files (vault w))))
  /\ exists rest, Permutation (sampled E count w ++ rest) (markdown_files (vault w)).
Proof.
  intros Hok Hcount.
  pose proof (Array_sort_perm E Hok TFile (random_order E)
                (markdown_files (vault w)) (seed w)) as Hperm.
  unfold sampled, shuffled_files.
  set (shuffled := fst (Array_sort E (random_order E) (markdown_files (vault w)) (seed w)))
    in *.
  pose proof (Permutation_length Hperm) as Hlen.
  rewrite Array_slice_head by lia.
  set (n := Z.to_nat (Z.min (Z.min count (Z.of_nat (List.length shuffled)))
                             (Z.of_nat (List.length shuffled)))).
  split.
  - rewrite length_firstn. subst n. lia.
  - exists (skipn n shuffled). apply firstn_perm_rest. exact Hperm.
Qed.

Lemma sampled_subset (E : Engine) (w : World E) (count : Z) (f : TFile) :
  EngineOk E ->
  (0 <= count)%Z ->
  In f (sampled E count w) -> In f (markdown_files (vault w)).
Proof.
  intros Hok Hcount Hin.
  destruct (sampled_spec E w count Hok Hcount) as [_ [rest Hperm]].
  apply (Permutation_in f Hperm). apply in_or_app. left. exact Hin.
Qed.

Lemma sampled_nonempty (E : Engine) (w : World E) (count : Z) :
  EngineOk E ->
  (0 < count)%Z ->
  markdown_files (vault w) <> [] -> sampled E count w <> [].
Proof.
  intros Hok Hcount Hfiles Hnone.
  destruct (sampled_spec E w count Hok ltac:(lia)) as [Hlen _].
  rewrite Hnone in Hlen. simpl in Hlen.
  destruct (markdown_files (vault w)) as [|f rest]; [congruence|].
  simpl List.length in Hlen. lia.
Qed.

(** C1.  For a vault that lists [M] Markdown files and a requested count
    [N] that is a count (an integer that is not negative), [getRandomNotes]
    returns [min(N, M)] files; they are the first files of a rearrangement
    of the listed ones, so each of them is a listed file, and they are
    pairwise distinct when the listed files are. *)
Theorem getRandomNotes_sample (E : Engine) (w : World E) (count : Z) :
  EngineOk E ->
  (0 <= count)%Z ->
  let files := markdown_files (vault w) in
  exists sample w',
    getRandomNotes E count w = (inr sample, w')
    /\ Z.of_nat (List.length sample) = Z.min count (Z.of_nat (List.length files))
    /\ (exists rest, Permutation (sample ++ rest) files)
    /\ (NoDup files -> NoDup sample)
    /\ (forall f, In f sample -> In f files).
Proof.
  intros Hok Hcount files.
  destruct (sampled_spec E w count Hok Hcount) as [Hlen [rest Hperm]].
  rewrite getRandomNotes_run.
  eexists. eexists. split; [reflexivity|].
  split; [exact Hlen|]. split; [exists rest; exact Hperm|]. split.
  - intros Hnodup. apply NoDup_app_left with (r := rest).
    apply (Permutation_NoDup (Permutation_sym Hperm)). exact Hnodup.
  - intros f Hin. apply (sampled_subset E w count f Hok Hcount Hin).
Qed.

(* ===================================================================== *)
(** * The prompt *)
(* ===================================================================== *)

Lemma length_append (a b : string) :
  String.length (a ++ b) = String.length a + String.length b.
Proof. induction a as [|c a IH]; simpl; [reflexivity | rewrite IH; reflexivity]. Qed.

Lemma append_assoc (a b c : string) : (a ++ b) ++ c = a ++ (b ++ c).
Proof. induction a as [|x a IH]; simpl; [reflexivity | rewrite IH; reflexivity]. Qed.

Lemma append_nil_r (a : string) : a ++ EmptyString = a.
Proof. induction a as [|x a IH]; simpl; [reflexivity | rewrite IH; reflexivity]. Qed.

Lemma substring_prefix (b c : string) :
  substring 0 (String.length b) (b ++ c) = b.
Proof.
  induction b as [|x b IH]; simpl.
  - destruct c; reflexivity.
  - rewrite IH. reflexivity.
Qed.

Lemma substring_middle (a b c : string) :
  substring (String.length a) (String.length b) (a ++ b ++ c) = b.
Proof.
  induction a as [|x a IH]; simpl.
  - apply substring_prefix.
  - exact IH.
Qed.

Lemma Array_mapi_from_nth {A B : Type} (f : A -> nat -> B) (l : list A) (k i : nat) :
  nth_error (Array_mapi_from k f l) i = option_map (fun x => f x (k + i)) (nth_error l i).
Proof.
  revert k i. induction l as [|x rest IH]; intros k i.
  - destruct i; reflexivity.
  - destruct i as [|i]; simpl.
    + rewrite Nat.add_0_r. reflexivity.
    + rewrite IH. rewrite Nat.add_succ_r. reflexivity.
Qed.

Lemma Array_mapi_length {A B : Type} (f : A -> nat -> B) (l : list A) (k : nat) :
  List.length (Array_mapi_from k f l) = List.length l.
Proof.
  revert k. induction l as [|x rest IH]; intros k; simpl; [reflexivity|].
  rewrite IH. reflexivity.
Qed.

Lemma firstn_snoc {A : Type} (l : list A) (i : nat) (b : A) :
  nth_error l i = Some b -> firstn (S i) l = (firstn i l ++ [b])%list.
Proof.
  revert i. induction l as [|x rest IH]; intros i Hb.
  - destruct i; discriminate.
  - destruct i as [|i]; simpl in Hb.
    + inversion Hb; subst. reflexivity.
    + change (firstn (S (S i)) (x :: rest)) with (x :: firstn (S i) rest).
      rewrite (IH i Hb). reflexivity.
Qed.

(** The pieces of a joined string: before piece [i] come the earlier
    pieces, each followed by the separator. *)
Lemma join_split_at (sep : string) (parts : list string) (i : nat) (b : string) :
  nth_error parts i = Some b ->
  exists before after,
    Str.join sep parts = before ++ b ++ after
    /\ String.length before
       = list_sum (map (fun p => String.length p + String.length sep) (firstn i parts)).
Proof.
  unfold Str.join. revert i. induction parts as [|x rest IH]; intros i Hnth.
  - destruct i; discriminate.
  - destruct i as [|i]; simpl in Hnth.
    + inversion Hnth; subst. exists EmptyString.
      destruct rest as [|y rest'].
      * exists EmptyString. simpl. rewrite append_nil_r. split; reflexivity.
      * exists (sep ++ String.concat sep (y :: rest')). split; reflexivity.
    + destruct rest as [|y rest']; [destruct i; discriminate|].
      destruct (IH i Hnth) as (before & after & Heq & Hlen).
      exists (x ++ sep ++ before), after. split.
      * change (String.concat sep (x :: y :: rest'))
          with (x ++ sep ++ String.concat sep (y :: rest')).
        rewrite Heq. rewrite !append_assoc. reflexivity.
      * change (firstn (S i) (x :: y :: rest')) with (x :: firstn i (y :: rest')).
        simpl map. simpl list_sum. rewrite !length_append, Hlen. lia.
Qed.

Lemma join_length (sep : string) (parts : list string) :
  String.length (Str.join sep parts) + String.length sep * Nat.min 1 (List.length parts)
  = list_sum (map (fun p => String.length p + String.length sep) parts).
Proof.
  unfold Str.join. induction parts as [|x rest IH].
  - simpl. lia.
  - destruct rest as [|y rest'].
    + simpl. lia.
    + change (String.concat sep (x :: y :: rest'))
        with (x ++ sep ++ String.concat sep (y :: rest')).
      unfold list_sum in *.
      cbn [map fold_right List.length Nat.min] in *. rewrite !length_append.
      lia.
Qed.

(** C2.  The prompt is the head of the template followed by one block per
    body and nothing else: the block of the body at position [i] (from 0)
    stands at [block_start i], after the blocks of the earlier bodies; it
    is the label with the number [i + 1], a line feed, the body as it is,
    a line feed and the rule.  The blocks do not overlap, and the length
    of the prompt is that of the head, of the blocks and of one line feed
    between two blocks.  No condition is put on the bodies. *)
Theorem prompt_numbers_each_body (noteContents : list string) :
  (forall i content,
      nth_error noteContents i = Some content ->
      substring (block_start noteContents i)
                (String.length (note_block content i))
                (prompt noteContents)
      = note_label i ++ Str.LF ++ content ++ Str.LF ++ "---"
      /\ block_start noteContents (S i)
         = block_start noteContents i + String.length (note_block content i) + 1)
  /\ String.length (prompt noteContents) + Nat.min 1 (List.length noteContents)
     = block_start noteContents (List.length noteContents).
Proof.
  split.
  - intros i content Hnth.
    assert (Hblock : nth_error (Array_mapi note_block noteContents) i
                     = Some (note_block content i)).
    { unfold Array_mapi. rewrite Array_mapi_from_nth, Hnth. reflexivity. }
    split.
    + destruct (join_split_at Str.LF _ i _ Hblock) as (before & after & Heq & Hlen).
      unfold prompt. rewrite Heq.
      replace (block_start noteContents i)
        with (String.length (PROMPT_HEAD ++ before)).
      * rewrite <- append_assoc. rewrite substring_middle.
        unfold note_block, note_label. rewrite !append_assoc. reflexivity.
      * rewrite length_append, Hlen. unfold block_start. f_equal. f_equal.
        apply map_ext. intros b. simpl. lia.
    + unfold block_start.
      set (blocks := Array_mapi note_block noteContents) in *.
      pose proof (firstn_snoc blocks i _ Hblock) as Hfirst.
      rewrite Hfirst, map_app, list_sum_app. simpl. lia.
  - unfold prompt, block_start.
    set (blocks := Array_mapi note_block noteContents).
    assert (Hlen : List.length blocks = List.length noteContents)
      by (apply Array_mapi_length).
    rewrite <- Hlen, firstn_all, length_append.
    pose proof (join_length Str.LF blocks) as Hjoin.
    change (String.length Str.LF) with 1 in Hjoin.
    replace (map (fun b => S (String.length b)) blocks)
      with (map (fun p => String.length p + 1) blocks)
      by (apply map_ext; intros b; lia).
    lia.
Qed.

(* ===================================================================== *)
(** * The report *)
(* ===================================================================== *)

Lemma join_bullets (files : list TFile) :
  Str.join Str.LF (map (fun file => "- [[" ++ basename file ++ "]]") files)
  = bullet_lines (map basename files).
Proof.
  unfold Str.join. induction files as [|f rest IH]; [reflexivity|].
  destruct rest as [|g rest'].
  - reflexivity.
  - change (bullet_lines (map basename (f :: g :: rest')))
      with (bullet (basename f) ++ Str.LF ++ bullet_lines (map basename (g :: rest'))).
    rewrite <- IH. reflexivity.
Qed.

Lemma formatAnalysis_report (files : list TFile) (analysis : string) :
  formatAnalysis files (JStr analysis) = report_template (map basename files) analysis.
Proof.
  unfold formatAnalysis, report_template. rewrite join_bullets. reflexivity.
Qed.

(** C4.  For every list of files and every analysis string,
    [formatAnalysis] yields the fixed template: the heading, one bullet
    [- [[title]]] per file in order, the second heading, the analysis
    text as it is.  For two files titled A and B and the analysis Z it is
    the template with the bullets [- [[A]]] and [- [[B]]] and then Z. *)
Theorem formatAnalysis_template :
  (forall (files : list TFile) (analysis : string),
      formatAnalysis files (JStr analysis)
      = report_template (map basename files) analysis)
  /\ (forall pa ea pb eb : string,
         formatAnalysis
           [ {| path := pa; basename := "A"; extension := ea |};
             {| path := pb; basename := "B"; extension := eb |} ]
           (JStr "Z")
         = "# Note Connections Analysis" ++ Str.LF
           ++ Str.LF
           ++ "## Analyzed Notes" ++ Str.LF
           ++ "- [[A]]" ++ Str.LF
           ++ "- [[B]]" ++ Str.LF
           ++ Str.LF
           ++ "## Analysis" ++ Str.LF
           ++ "Z" ++ Str.LF).
Proof.
  split.
  - exact formatAnalysis_report.
  - intros pa ea pb eb. reflexivity.
Qed.

(* ===================================================================== *)
(** * Steps of a run *)
(* ===================================================================== *)

Lemma Promise_all_fulfilled {A : Type} (ps : list (Promise A)) :
  (forall p, In p ps -> exists a, p = inr a) ->
  exists l, Promise_all ps = inr l.
Proof.
  induction ps as [|p rest IH]; intros Hall.
  - exists []. reflexivity.
  - destruct (Hall p (or_introl eq_refl)) as [a Ha]. subst p.
    destruct IH as [l Hl]; [intros q Hq; apply Hall; right; exact Hq|].
    exists (a :: l). cbn [Promise_all]. rewrite Hl. reflexivity.
Qed.

Lemma mapM_vault_read_run (E : Engine) (host : Host) (notes : list TFile) (w : World E) :
  mapM E (vault_read E host) notes w
  = (inr (map (read_outcome host (vault w)) notes),
     set_trace E (trace w ++ map EvRead notes) w).
Proof.
  revert w. induction notes as [|f rest IH]; intros w.
  - cbn. rewrite app_nil_r. destruct w; reflexivity.
  - cbn. rewrite IH. cbn. rewrite <- app_assoc. reflexivity.
Qed.

Lemma analyzeWithGPT4_run (E : Engine) (host : Host) (noteContents : list string)
      (w : World E) :
  analyzeWithGPT4 E host noteContents w
  = (reply host (apiKey (settings w)) noteContents,
     set_trace E
       (trace w ++ [EvFetch (completion_request (apiKey (settings w)) (prompt noteContents))])
       w).
Proof.
  unfold analyzeWithGPT4, reply, read_content, fetch, log. cbn.
  destruct (transport host _) as [e|response]; cbn; [reflexivity|].
  destruct (ok response); cbn; [|reflexivity].
  destruct (json response) as [e|data]; cbn; [reflexivity|].
  destruct (Get data "choices") as [e|choices]; cbn; [reflexivity|].
  destruct (GetIndex choices 0) as [e|choice]; cbn; [reflexivity|].
  destruct (Get choice "message") as [e|msg]; cbn; [reflexivity|].
  destruct (Get msg "content") as [e|content]; cbn; reflexivity.
Qed.

(* ===================================================================== *)
(** * The branches of a run *)
(* ===================================================================== *)

#[local] Arguments getRandomNotes : simpl never.
#[local] Arguments mapM : simpl never.
#[local] Arguments analyzeWithGPT4 : simpl never.
#[local] Arguments formatAnalysis : simpl never.
#[local] Arguments analysis_path : simpl never.
#[local] Arguments analyzing_notice : simpl never.
#[local] Arguments error_notice : simpl never.
#[local] Arguments Promise_all : simpl never.
#[local] Arguments completion_request : simpl never.
#[local] Arguments prompt : simpl never.

Lemma length_eqb_0 {A : Type} (l : list A) :
  l <> [] -> Nat.eqb (List.length l) 0 = false.
Proof. destruct l; [congruence | reflexivity]. Qed.

(** Unfold the run up to the sampling of the notes. *)
Ltac enter_run Hkey :=
  unfold onRibbonClick, analysis_run; cbn;
  rewrite Hkey, getRandomNotes_run; cbn.

(** Put the trace of the world in the goal in the form [trace w ++ evs]. *)
Ltac tidy_trace :=
  unfold world_after, failure_events; cbn;
  repeat rewrite <- app_assoc; cbn [app]; try reflexivity.

Lemma run_without_key (E : Engine) (host : Host) (w : World E) :
  falsy (apiKey (settings w)) = true ->
  onRibbonClick E host w
  = (inr tt, world_after w (vault w) (seed w) [EvNotice KEY_NOTICE]).
Proof.
  intros Hkey. unfold onRibbonClick, analysis_run. cbn. rewrite Hkey. reflexivity.
Qed.

Lemma run_without_notes (E : Engine) (host : Host) (w : World E) :
  falsy (apiKey (settings w)) = false ->
  sampled E 10 w = [] ->
  onRibbonClick E host w
  = (inr tt,
     world_after w (vault w) (seed_after E w)
       [EvGetMarkdownFiles; EvNotice NO_NOTES_NOTICE]).
Proof.
  intros Hkey Hnone. enter_run Hkey. rewrite Hnone. cbn. tidy_trace.
Qed.

Lemma run_read_failure (E : Engine) (host : Host) (w : World E) (e : Error) :
  falsy (apiKey (settings w)) = false ->
  sampled E 10 w <> [] ->
  Promise_all (map (read_outcome host (vault w)) (sampled E 10 w)) = inl e ->
  onRibbonClick E host w
  = (inr tt,
     world_after w (vault w) (seed_after E w)
       ([EvGetMarkdownFiles; EvNotice (analyzing_notice (List.length (sampled E 10 w)))]
        ++ map EvRead (sampled E 10 w) ++ failure_events e)).
Proof.
  intros Hkey Hsome Hreads. enter_run Hkey.
  rewrite (length_eqb_0 _ Hsome). cbn.
  rewrite mapM_vault_read_run. cbn. rewrite Hreads. cbn. tidy_trace.
Qed.

Lemma run_reply_failure (E : Engine) (host : Host) (w : World E)
      (noteContents : list string) (e : Error) :
  falsy (apiKey (settings w)) = false ->
  sampled E 10 w <> [] ->
  Promise_all (map (read_outcome host (vault w)) (sampled E 10 w)) = inr noteContents ->
  reply host (apiKey (settings w)) noteContents = inl e ->
  onRibbonClick E host w
  = (inr tt,
     world_after w (vault w) (seed_after E w)
       ([EvGetMarkdownFiles; EvNotice (analyzing_notice (List.length (sampled E 10 w)))]
        ++ map EvRead (sampled E 10 w)
        ++ EvFetch (completion_request (apiKey (settings w)) (prompt noteContents))
        :: failure_events e)).
Proof.
  intros Hkey Hsome Hreads Hreply. enter_run Hkey.
  rewrite (length_eqb_0 _ Hsome). cbn.
  rewrite mapM_vault_read_run. cbn. rewrite Hreads. cbn.
  rewrite analyzeWithGPT4_run. cbn. rewrite Hreply. cbn. tidy_trace.
Qed.

Lemma run_name_taken (E : Engine) (host : Host) (w : World E)
      (noteContents : list string) (analysis : JSValue) :
  falsy (apiKey (settings w)) = false ->
  sampled E 10 w <> [] ->
  Promise_all (map (read_outcome host (vault w)) (sampled E 10 w)) = inr noteContents ->
  reply host (apiKey (settings w)) noteContents = inr analysis ->
  existsb (fun entry => String.eqb (path (fst entry)) (analysis_path (now host))) (vault w)
  = true ->
  onRibbonClick E host w
  = (inr tt,
     world_after w (vault w) (seed_after E w)
       ([EvGetMarkdownFiles; EvNotice (analyzing_notice (List.length (sampled E 10 w)))]
        ++ map EvRead (sampled E 10 w)
        ++ EvFetch (completion_request (apiKey (settings w)) (prompt noteContents))
        :: EvCreate (analysis_path (now host)) (formatAnalysis (sampled E 10 w) analysis)
        :: failure_events (new_Error "File already exists."))).
Proof.
  intros Hkey Hsome Hreads Hreply Htaken. enter_run Hkey.
  rewrite (length_eqb_0 _ Hsome). cbn.
  rewrite mapM_vault_read_run. cbn. rewrite Hreads. cbn.
  rewrite analyzeWithGPT4_run. cbn. rewrite Hreply. cbn.
  rewrite Htaken. cbn. tidy_trace.
Qed.

Lemma run_success (E : Engine) (host : Host) (w : World E)
      (noteContents : list string) (analysis : JSValue) :
  falsy (apiKey (settings w)) = false ->
  sampled E 10 w <> [] ->
  Promise_all (map (read_outcome host (vault w)) (sampled E 10 w)) = inr noteContents ->
  reply host (apiKey (settings w)) noteContents = inr analysis ->
  existsb (fun entry => String.eqb (path (fst entry)) (analysis_path (now host))) (vault w)
  = false ->
  onRibbonClick E host w
  = (inr tt,
     world_after w
       (vault w ++ [(TFile_of_path (analysis_path (now host)),
                     formatAnalysis (sampled E 10 w) analysis)])
       (seed_after E w)
       ([EvGetMarkdownFiles; EvNotice (analyzing_notice (List.length (sampled E 10 w)))]
        ++ map EvRead (sampled E 10 w)
        ++ [ EvFetch (completion_request (apiKey (settings w)) (prompt noteContents));
             EvCreate (analysis_path (now host)) (formatAnalysis (sampled E 10 w) analysis);
             EvOpen (TFile_of_path (analysis_path (now host))) ])).
Proof.
  intros Hkey Hsome Hreads Hreply Hfree. enter_run Hkey.
  rewrite (length_eqb_0 _ Hsome). cbn.
  rewrite mapM_vault_read_run. cbn. rewrite Hreads. cbn.
  rewrite analyzeWithGPT4_run. cbn. rewrite Hreply. cbn.
  rewrite Hfree. cbn. tidy_trace.
Qed.

(* ===================================================================== *)
(** * The remote analyzer *)
(* ===================================================================== *)

Lemma first_choice_content_read (data content : JSValue) :
  first_choice_content data = Some content -> read_content data = inr content.
Proof.
  unfold first_choice_content, read_content. intros H.
  destruct data as [| | | | | |props]; try discriminate. cbn.
  destruct (assoc "choices" props) as [choices|]; [|discriminate].
  destruct choices as [| | | | |items|]; try discriminate.
  destruct items as [|choice items]; [discriminate|].
  destruct choice as [| | | | | |cprops]; try discriminate. cbn.
  destruct (assoc "message" cprops) as [msg|]; [|discriminate].
  destruct msg as [| | | | | |mprops]; try discriminate. cbn.
  rewrite H. reflexivity.
Qed.

Lemma not_2xx_not_ok (response : Response) :
  status response < 200 \/ 299 < status response -> ok response = false.
Proof.
  unfold ok. intros [H|H].
  - apply andb_false_intro1. apply Nat.leb_gt. exact H.
  - apply andb_false_intro2. apply Nat.leb_gt. exact H.
Qed.

(** C3.  When the transport answers the request of [analyzeWithGPT4] with
    a response: if its status is 200 and [choices[0].message.content] of
    its JSON body is the string X, the call returns X; if its status is
    outside 200..299, the call throws the request-failed error, so no value
    is returned.  In both cases the call has made one request and nothing
    else. *)
Theorem analyzeWithGPT4_response (E : Engine) (host : Host) (w : World E)
        (noteContents : list string) (response : Response) :
  transport host (completion_request (apiKey (settings w)) (prompt noteContents))
  = inr response ->
  (forall (data : JSValue) (X : string),
      status response = 200 ->
      json response = inr data ->
      first_choice_content data = Some (JStr X) ->
      fst (analyzeWithGPT4 E host noteContents w) = inr (JStr X))
  /\ (status response < 200 \/ 299 < status response ->
      fst (analyzeWithGPT4 E host noteContents w)
      = inl (new_Error "Failed to get response from GPT-4"))
  /\ trace (snd (analyzeWithGPT4 E host noteContents w))
     = (trace w
        ++ [EvFetch (completion_request (apiKey (settings w)) (prompt noteContents))])%list.
Proof.
  intros Hanswer. rewrite analyzeWithGPT4_run. unfold reply. rewrite Hanswer.
  split; [|split].
  - intros data X Hstatus Hjson Hcontent. cbn [fst].
    unfold ok. rewrite Hstatus. cbn [Nat.leb andb]. rewrite Hjson.
    apply first_choice_content_read. exact Hcontent.
  - intros Hstatus. cbn [fst]. rewrite (not_2xx_not_ok _ Hstatus). reflexivity.
  - reflexivity.
Qed.

(* ===================================================================== *)
(** * Runs of the ribbon action *)
(* ===================================================================== *)

Lemma falsy_true_iff (s : string) : falsy s = true <-> s = EmptyString.
Proof. unfold falsy. apply String.eqb_eq. Qed.

Lemma falsy_false_iff (s : string) : falsy s = false <-> s <> EmptyString.
Proof. unfold falsy. apply String.eqb_neq. Qed.

Lemma filter_reads (p : Event -> bool) (notes : list TFile) :
  (forall f, p (EvRead f) = false) -> filter p (map EvRead notes) = [].
Proof.
  intros Hp. induction notes as [|f rest IH]; [reflexivity|].
  simpl. rewrite Hp. exact IH.
Qed.

Lemma count_events_app (p : Event -> bool) (tr evs : list Event) :
  count_events p (tr ++ evs) = count_events p tr + count_events p evs.
Proof. unfold count_events. rewrite filter_app, length_app. reflexivity. Qed.

Lemma Array_slice_nil {A : Type} (start end_ : Z) : Array_slice (@nil A) start end_ = [].
Proof. unfold Array_slice. rewrite skipn_nil, firstn_nil. reflexivity. Qed.

Lemma sampled_of_no_files (E : Engine) (w : World E) (count : Z) :
  EngineOk E -> markdown_files (vault w) = [] -> sampled E count w = [].
Proof.
  intros Hok Hnone. unfold sampled, shuffled_files.
  pose proof (Array_sort_perm E Hok TFile (random_order E)
                (markdown_files (vault w)) (seed w)) as Hperm.
  rewrite Hnone in *.
  apply Permutation_sym, Permutation_nil in Hperm. rewrite Hperm.
  apply Array_slice_nil.
Qed.

(** A run that passes the key check lists the files first; it makes no
    request, or one request, built from the stored key and the texts read. *)
Lemma run_with_key (E : Engine) (host : Host) (w : World E) :
  falsy (apiKey (settings w)) = false ->
  exists v g evs,
    onRibbonClick E host w = (inr tt, world_after w v g (EvGetMarkdownFiles :: evs))
    /\ (filter is_fetch evs = []
        \/ exists noteContents,
             filter is_fetch evs
             = [EvFetch (completion_request (apiKey (settings w)) (prompt noteContents))]).
Proof.
  intros Hkey.
  assert (Hcases : sampled E 10 w = [] \/ sampled E 10 w <> [])
    by (destruct (sampled E 10 w); [left; reflexivity | right; discriminate]).
  destruct Hcases as [Hsample | Hsome].
  { rewrite (run_without_notes E host w Hkey Hsample).
    do 3 eexists. split; [reflexivity|]. left. reflexivity. }
  destruct (Promise_all (map (read_outcome host (vault w)) (sampled E 10 w)))
    as [e|noteContents] eqn:Hreads.
  { rewrite (run_read_failure E host w e Hkey Hsome Hreads).
    do 3 eexists. split; [reflexivity|]. left.
    cbn [filter is_fetch]. rewrite filter_app, filter_reads by reflexivity.
    reflexivity. }
  destruct (reply host (apiKey (settings w)) noteContents) as [e|analysis] eqn:Hreply.
  { rewrite (run_reply_failure E host w noteContents e Hkey Hsome Hreads Hreply).
    do 3 eexists. split; [reflexivity|]. right. exists noteContents.
    cbn [filter is_fetch]. rewrite filter_app, filter_reads by reflexivity.
    reflexivity. }
  destruct (existsb (fun entry => String.eqb (path (fst entry)) (analysis_path (now host)))
                    (vault w)) eqn:Htaken.
  - rewrite (run_name_taken E host w noteContents analysis Hkey Hsome Hreads Hreply Htaken).
    do 3 eexists. split; [reflexivity|]. right. exists noteContents.
    cbn [filter is_fetch]. rewrite filter_app, filter_reads by reflexivity.
    reflexivity.
  - rewrite (run_success E host w noteContents analysis Hkey Hsome Hreads Hreply Htaken).
    do 3 eexists. split; [reflexivity|]. right. exists noteContents.
    cbn [filter is_fetch]. rewrite filter_app, filter_reads by reflexivity.
    reflexivity.
Qed.

(** C5.  With the empty string as the stored key, a click adds one event,
    the notice that asks for the key, and returns: no file is listed or
    read, no request is made, no document is created, the vault is the
    same. *)
Theorem empty_key_aborts (E : Engine) (host : Host) (w : World E) :
  apiKey (settings w) = EmptyString ->
  let w' := snd (onRibbonClick E host w) in
  fst (onRibbonClick E host w) = inr tt
  /\ trace w'
     = (trace w ++ [EvNotice "Please set your OpenAI API key in the plugin settings"])%list
  /\ vault w' = vault w
  /\ count_events is_notice (trace w') = count_events is_notice (trace w) + 1
  /\ count_events is_fetch (trace w') = count_events is_fetch (trace w)
  /\ count_events is_create (trace w') = count_events is_create (trace w).
Proof.
  intros Hkey. apply falsy_true_iff in Hkey.
  rewrite (run_without_key E host w Hkey). cbn [fst snd world_after trace vault].
  rewrite !count_events_app. cbn. repeat split; lia.
Qed.

(** C6.  When the vault lists no Markdown file, [getRandomNotes] returns
    the empty array for every count, and a click makes no request and
    creates no document; the click that has passed the key check, and so
    calls the sampler, lists the files, shows the notice that no notes
    were found, and returns. *)
Theorem empty_vault_aborts (E : Engine) (host : Host) (w : World E) :
  EngineOk E ->
  markdown_files (vault w) = [] ->
  let w' := snd (onRibbonClick E host w) in
  (forall count, fst (getRandomNotes E count w) = inr [])
  /\ (apiKey (settings w) <> EmptyString ->
      fst (onRibbonClick E host w) = inr tt
      /\ trace w' = (trace w ++ [EvGetMarkdownFiles; EvNotice "No notes found in vault"])%list)
  /\ vault w' = vault w
  /\ count_events is_fetch (trace w') = count_events is_fetch (trace w)
  /\ count_events is_create (trace w') = count_events is_create (trace w).
Proof.
  intros Hok Hnone w'.
  split.
  { intros count. rewrite getRandomNotes_run. cbn [fst].
    rewrite (sampled_of_no_files E w count Hok Hnone). reflexivity. }
  pose proof (sampled_of_no_files E w 10 Hok Hnone) as Hsample.
  destruct (falsy (apiKey (settings w))) eqn:Hkey.
  - split.
    + intros Hset. apply falsy_true_iff in Hkey. contradiction.
    + subst w'. rewrite (run_without_key E host w Hkey).
      cbn [fst snd world_after trace vault]. rewrite !count_events_app. cbn.
      repeat split; lia.
  - subst w'. rewrite (run_without_notes E host w Hkey Hsample).
    cbn [fst snd world_after trace vault]. rewrite !count_events_app. cbn.
    repeat split; lia.
Qed.

(* ===================================================================== *)
(** * The request *)
(* ===================================================================== *)

Lemma unescape_escape_char (c : ascii) (t : string) :
  unescape (escape_char c ++ t) = option_map (String c) (unescape t).
Proof.
  destruct c as [[] [] [] [] [] [] [] []]; reflexivity.
Qed.

Lemma unescape_escape (s : string) : unescape (escape s) = Some s.
Proof.
  induction s as [|c rest IH]; [reflexivity|].
  cbn [escape]. rewrite unescape_escape_char, IH. reflexivity.
Qed.

(** C8.  Every call of [analyzeWithGPT4] makes one host call: a POST to
    the chat-completions endpoint, with the stored key after [Bearer ] in
    the Authorization header and the JSON content type, whose body is the
    JSON text of an object with the model gpt-4, one message of role user
    whose content is the prompt, and the temperature 0.7; reading the
    content string of the body back gives the prompt.  A click that gets
    to the analyzer (a key is stored, notes were sampled and all their
    texts read) makes that request and no other. *)
Theorem one_completion_request (E : Engine) (host : Host) (w : World E)
        (noteContents : list string) :
  let key := apiKey (settings w) in
  let req :=
    {| url := "https://api.openai.com/v1/chat/completions";
       method := "POST";
       headers := [ ("Authorization", "Bearer " ++ key);
                    ("Content-Type", "application/json") ];
       body := Some ("{" ++ in_quotes "model" ++ ":" ++ in_quotes "gpt-4" ++ ","
                     ++ in_quotes "messages" ++ ":[{"
                     ++ in_quotes "role" ++ ":" ++ in_quotes "user" ++ ","
                     ++ in_quotes "content" ++ ":"
                     ++ in_quotes (escape (prompt noteContents))
                     ++ "}]," ++ in_quotes "temperature" ++ ":0.7}") |} in
  trace (snd (analyzeWithGPT4 E host noteContents w)) = (trace w ++ [EvFetch req])%list
  /\ unescape (escape (prompt noteContents)) = Some (prompt noteContents)
  /\ (key <> EmptyString ->
      sampled E 10 w <> [] ->
      Promise_all (map (read_outcome host (vault w)) (sampled E 10 w)) = inr noteContents ->
      exists evs,
        trace (snd (onRibbonClick E host w)) = (trace w ++ evs)%list
        /\ filter is_fetch evs = [EvFetch req]).
Proof.
  intros key req.
  assert (Hreq : completion_request key (prompt noteContents) = req).
  { unfold completion_request, req. f_equal. unfold request_payload.
    generalize (prompt noteContents) as content. intros content.
    cbn [JSON_stringify map flat_map snd fst app Str.join String.concat].
    change (quote "model") with (in_quotes "model").
    change (quote "gpt-4") with (in_quotes "gpt-4").
    change (quote "messages") with (in_quotes "messages").
    change (quote "role") with (in_quotes "role").
    change (quote "user") with (in_quotes "user").
    change (quote "content") with (in_quotes "content").
    change (quote "temperature") with (in_quotes "temperature").
    change (quote content) with (in_quotes (escape content)).
    generalize (in_quotes "model") (in_quotes "gpt-4") (in_quotes "messages")
               (in_quotes "role") (in_quotes "user") (in_quotes "content")
               (in_quotes "temperature") (in_quotes (escape content)).
    intros q1 q2 q3 q4 q5 q6 q7 q8.
    repeat rewrite append_assoc. reflexivity. }
  split; [|split].
  - rewrite analyzeWithGPT4_run. cbn [snd set_trace trace]. fold key. rewrite Hreq.
    reflexivity.
  - apply unescape_escape.
  - intros Hset Hsome Hreads. apply falsy_false_iff in Hset.
    rewrite <- Hreq. unfold key in *.
    destruct (reply host (apiKey (settings w)) noteContents) as [e|analysis] eqn:Hreply.
    { rewrite (run_reply_failure E host w noteContents e Hset Hsome Hreads Hreply).
      eexists. split; [reflexivity|].
      cbn [app filter is_fetch]. rewrite filter_app, filter_reads by reflexivity.
      reflexivity. }
    destruct (existsb (fun entry => String.eqb (path (fst entry)) (analysis_path (now host)))
                      (vault w)) eqn:Htaken.
    + rewrite (run_name_taken E host w noteContents analysis Hset Hsome Hreads Hreply Htaken).
      eexists. split; [reflexivity|].
      cbn [app filter is_fetch]. rewrite filter_app, filter_reads by reflexivity.
      reflexivity.
    + rewrite (run_success E host w noteContents analysis Hset Hsome Hreads Hreply Htaken).
      eexists. split; [reflexivity|].
      cbn [app filter is_fetch]. rewrite filter_app, filter_reads by reflexivity.
      reflexivity.
Qed.

(* ===================================================================== *)
(** * The name of the report *)
(* ===================================================================== *)

Lemma mem_append (c : ascii) (a b : string) :
  Str.mem c (a ++ b) = Str.mem c a || Str.mem c b.
Proof.
  induction a as [|x a IH]; simpl; [reflexivity|].
  rewrite IH, orb_assoc. reflexivity.
Qed.

Lemma mem_replicate (c x : ascii) (n : nat) :
  Ascii.eqb x c = false -> Str.mem c (Str.replicate n x) = false.
Proof.
  intros Hx. induction n as [|n IH]; simpl; [reflexivity|].
  rewrite Hx, IH. reflexivity.
Qed.

Lemma mem_T_uint (d : Decimal.uint) : Str.mem "T" (NilEmpty.string_of_uint d) = false.
Proof. induction d; simpl; try reflexivity; exact IHd. Qed.

Lemma mem_T_of_nat (n : nat) : Str.mem "T" (Str.of_nat n) = false.
Proof.
  unfold Str.of_nat, NilZero.string_of_uint.
  destruct (Nat.to_uint n) eqn:Hd; try reflexivity; rewrite <- Hd; apply mem_T_uint.
Qed.

Lemma mem_T_pad (width n : nat) : Str.mem "T" (pad width n) = false.
Proof.
  unfold pad, Str.padStart. rewrite mem_append, mem_T_of_nat, orb_false_r.
  apply mem_replicate. reflexivity.
Qed.

Lemma mem_T_iso_date (d : Date) : Str.mem "T" (iso_date d) = false.
Proof.
  unfold iso_date, iso_year.
  destruct ((0 <=? year d) && (year d <=? 9999))%Z.
  - rewrite !mem_append, !mem_T_pad. reflexivity.
  - destruct (year d <? 0)%Z; rewrite !mem_append, !mem_T_pad; reflexivity.
Qed.

Lemma split_first (sep : ascii) (a b : string) :
  Str.mem sep a = false ->
  Str.split sep (a ++ String sep b) = a :: Str.split sep b.
Proof.
  induction a as [|c a IH]; intros Hmem.
  - simpl. rewrite Ascii.eqb_refl. reflexivity.
  - simpl in Hmem. apply orb_false_elim in Hmem. destruct Hmem as [Hc Ha].
    simpl. rewrite Hc, (IH Ha). reflexivity.
Qed.

(** The name of the report holds the date of the clock, for every clock. *)
Lemma analysis_path_date (d : Date) :
  analysis_path d = "Note Connections Analysis " ++ iso_date d ++ ".md".
Proof.
  unfold analysis_path, toISOString.
  change (iso_date d ++ "T" ++ ?rest) with (iso_date d ++ String "T" rest).
  rewrite split_first by apply mem_T_iso_date. reflexivity.
Qed.

Lemma to_little_uint_iter (n : nat) (acc : Decimal.uint) :
  Nat.to_little_uint n acc = Nat.iter n Decimal.Little.succ acc.
Proof.
  revert acc. induction n as [|n IH]; intros acc; [reflexivity|].
  simpl Nat.to_little_uint. rewrite IH, <- Nat.iter_succ_r. reflexivity.
Qed.

Lemma check_from_nth (ok_text : string -> bool) (width k : nat) (d : Decimal.uint) :
  check_from ok_text width k d = true ->
  forall i, i < k -> ok_text (pad_little width (Nat.iter i Decimal.Little.succ d)) = true.
Proof.
  revert d. induction k as [|k IH]; intros d Hcheck i Hi; [lia|].
  simpl in Hcheck. apply andb_prop in Hcheck. destruct Hcheck as [Hd Hrest].
  destruct i as [|i]; [exact Hd|].
  rewrite Nat.iter_succ_r. apply IH; [exact Hrest | lia].
Qed.

Lemma pad_checked (ok_text : string -> bool) (width k n : nat) :
  check_from ok_text width k Decimal.zero = true ->
  n < k -> ok_text (pad width n) = true.
Proof.
  intros Hcheck Hn.
  pose proof (check_from_nth ok_text width k Decimal.zero Hcheck n Hn) as H.
  unfold pad_little in H. rewrite <- to_little_uint_iter in H. exact H.
Qed.

Lemma four_digits_pad (n : nat) : n < 100 * 100 -> four_digits (pad 4 n) = true.
Proof. apply pad_checked. vm_compute. reflexivity. Qed.

Lemma two_digits_pad (n : nat) : n < 100 -> two_digits (pad 2 n) = true.
Proof. apply pad_checked. vm_compute. reflexivity. Qed.

Lemma yyyy_mm_dd_parts (y m d : string) :
  four_digits y = true -> two_digits m = true -> two_digits d = true ->
  yyyy_mm_dd (y ++ "-" ++ m ++ "-" ++ d) = true.
Proof.
  intros Hy Hm Hd.
  destruct y as [|y1 [|y2 [|y3 [|y4 [|y5 y]]]]]; try discriminate.
  destruct m as [|m1 [|m2 [|m3 m]]]; try discriminate.
  destruct d as [|d1 [|d2 [|d3 d]]]; try discriminate.
  cbn [append yyyy_mm_dd]. rewrite Hy, Hm, Hd. reflexivity.
Qed.

Lemma iso_date_form (d : Date) :
  calendar_date d = true -> yyyy_mm_dd (iso_date d) = true.
Proof.
  unfold calendar_date, iso_date, iso_year. intros Hcal.
  apply andb_prop in Hcal. destruct Hcal as [Hyear Hrest].
  rewrite Hyear.
  apply andb_prop in Hyear. destruct Hyear as [Hlo Hhi].
  apply Z.leb_le in Hlo, Hhi.
  apply andb_prop in Hrest. destruct Hrest as [Hrest Hday_hi].
  apply andb_prop in Hrest. destruct Hrest as [Hrest Hday_lo].
  apply andb_prop in Hrest. destruct Hrest as [Hmonth_lo Hmonth_hi].
  apply Nat.leb_le in Hday_hi, Hmonth_hi.
  apply yyyy_mm_dd_parts.
  - apply four_digits_pad. lia.
  - apply two_digits_pad. lia.
  - apply two_digits_pad. lia.
Qed.

(* ===================================================================== *)
(** * The successful run *)
(* ===================================================================== *)

Lemma TFile_of_path_path (p : string) : path (TFile_of_path p) = p.
Proof.
  unfold TFile_of_path.
  destruct (Str.split "." (last_piece (Str.split "/" p))) as [|a [|b rest]]; reflexivity.
Qed.

Lemma markdown_files_listed (v : list (TFile * string)) (f : TFile) :
  In f (markdown_files v) -> exists text, In (f, text) v.
Proof.
  unfold markdown_files. intros Hin. apply filter_In in Hin. destruct Hin as [Hin _].
  apply in_map_iff in Hin. destruct Hin as [[g text] [Heq Hin]]. simpl in Heq. subst g.
  exists text. exact Hin.
Qed.

Lemma read_outcome_listed (host : Host) (v : list (TFile * string)) (f : TFile) :
  read_fault host f = None ->
  In f (markdown_files v) ->
  exists text, read_outcome host v f = inr text.
Proof.
  intros Hfault Hin. unfold read_outcome. rewrite Hfault.
  destruct (markdown_files_listed v f Hin) as [text Hentry].
  destruct (find (fun entry => String.eqb (path (fst entry)) (path f)) v) as [entry|] eqn:Hfind.
  - exists (snd entry). reflexivity.
  - exfalso. pose proof (find_none _ _ Hfind _ Hentry) as Hno. simpl in Hno.
    rewrite String.eqb_refl in Hno. discriminate.
Qed.

Lemma name_free (v : list (TFile * string)) (p : string) :
  (forall entry, In entry v -> path (fst entry) <> p) ->
  existsb (fun entry => String.eqb (path (fst entry)) p) v = false.
Proof.
  intros Hfree. induction v as [|entry rest IH]; [reflexivity|].
  cbn [existsb].
  rewrite (proj2 (String.eqb_neq _ _) (Hfree entry (or_introl eq_refl))).
  apply IH. intros e He. apply Hfree. right. exact He.
Qed.

Lemma report_holds_bullet (notes : list TFile) (analysis : JSValue) (f : TFile) :
  In f notes ->
  exists before after,
    formatAnalysis notes analysis = before ++ "- [[" ++ basename f ++ "]]" ++ after.
Proof.
  intros Hin. apply In_nth_error in Hin. destruct Hin as [i Hnth].
  assert (Hbullet : nth_error (map (fun file => "- [[" ++ basename file ++ "]]") notes) i
                    = Some ("- [[" ++ basename f ++ "]]"))
    by (rewrite nth_error_map, Hnth; reflexivity).
  destruct (join_split_at Str.LF _ i _ Hbullet) as (before & after & Heq & _).
  exists (("# Note Connections Analysis" ++ Str.LF ++ Str.LF
           ++ "## Analyzed Notes" ++ Str.LF) ++ before).
  exists (after ++ Str.LF ++ Str.LF ++ "## Analysis" ++ Str.LF
          ++ ToString analysis ++ Str.LF).
  unfold formatAnalysis. rewrite Heq.
  repeat rewrite append_assoc. reflexivity.
Qed.

Lemma report_ends_with_analysis (notes : list TFile) (analysis : JSValue) :
  exists before,
    formatAnalysis notes analysis = before ++ ToString analysis ++ Str.LF.
Proof.
  exists ("# Note Connections Analysis" ++ Str.LF ++ Str.LF
          ++ "## Analyzed Notes" ++ Str.LF
          ++ Str.join Str.LF (map (fun file => "- [[" ++ basename file ++ "]]") notes)
          ++ Str.LF ++ Str.LF ++ "## Analysis" ++ Str.LF).
  unfold formatAnalysis. repeat rewrite append_assoc. reflexivity.
Qed.

(** C7.  A run with a stored key, a vault that lists a Markdown file, reads
    that succeed, a transport that answers with a success status and a
    completion whose text is X, no file yet at the name of the report, and
    a clock at a date of the years 0 to 9999, creates one document and
    opens it: the vault gains one file, named by the prefix, the date of
    the clock in the form YYYY-MM-DD and [.md]; its text is the template
    with a bullet link for the title of every sampled note and the text X;
    the last two host calls are the creation and the opening of that file,
    and no other creation or opening precedes them. *)
Theorem successful_run_writes_report (E : Engine) (host : Host) (w : World E)
        (response : Response) (data : JSValue) (X : string) :
  EngineOk E ->
  apiKey (settings w) <> EmptyString ->
  markdown_files (vault w) <> [] ->
  (forall f, read_fault host f = None) ->
  (forall req, transport host req = inr response) ->
  ok response = true ->
  json response = inr data ->
  first_choice_content data = Some (JStr X) ->
  (forall entry, In entry (vault w) -> path (fst entry) <> analysis_path (now host)) ->
  calendar_date (now host) = true ->
  let w' := snd (onRibbonClick E host w) in
  exists notes date evs,
    fst (getRandomNotes E 10 w) = inr notes
    /\ fst (onRibbonClick E host w) = inr tt
    /\ date = iso_date (now host)
    /\ yyyy_mm_dd date = true
    /\ let name := "Note Connections Analysis " ++ date ++ ".md" in
       let text := formatAnalysis notes (JStr X) in
       vault w' = (vault w ++ [(TFile_of_path name, text)])%list
       /\ path (TFile_of_path name) = name
       /\ text = report_template (map basename notes) X
       /\ (forall f, In f notes ->
             exists before after, text = before ++ "- [[" ++ basename f ++ "]]" ++ after)
       /\ (exists before, text = before ++ X ++ Str.LF)
       /\ trace w' = (trace w ++ evs ++ [EvCreate name text; EvOpen (TFile_of_path name)])%list
       /\ count_events is_create evs = 0
       /\ count_events is_open evs = 0.
Proof.
  intros Hok Hkey Hfiles Hreadable Hanswer Hstatus Hjson Hcontent Hfree Hdate w'.
  apply falsy_false_iff in Hkey.
  pose proof (sampled_nonempty E w 10 Hok ltac:(lia) Hfiles) as Hsome.
  destruct (Promise_all_fulfilled (map (read_outcome host (vault w)) (sampled E 10 w)))
    as [noteContents Hreads].
  { intros p Hp. apply in_map_iff in Hp. destruct Hp as [f [Hf Hin]]. subst p.
    apply read_outcome_listed; [apply Hreadable|].
    apply (sampled_subset E w 10 f Hok ltac:(lia) Hin). }
  assert (Hreply : reply host (apiKey (settings w)) noteContents = inr (JStr X)).
  { unfold reply. rewrite Hanswer, Hstatus, Hjson.
    apply first_choice_content_read. exact Hcontent. }
  pose proof (name_free (vault w) _ Hfree) as Hname.
  subst w'.
  rewrite (run_success E host w noteContents (JStr X) Hkey Hsome Hreads Hreply Hname).
  rewrite getRandomNotes_run. cbn [fst snd world_after vault trace].
  rewrite analysis_path_date.
  exists (sampled E 10 w), (iso_date (now host)).
  exists ([EvGetMarkdownFiles; EvNotice (analyzing_notice (List.length (sampled E 10 w)))]
          ++ map EvRead (sampled E 10 w)
          ++ [EvFetch (completion_request (apiKey (settings w)) (prompt noteContents))])%list.
  split; [reflexivity|]. split; [reflexivity|]. split; [reflexivity|].
  split; [apply iso_date_form; exact Hdate|].
  cbv zeta.
  split; [reflexivity|].
  split; [apply TFile_of_path_path|].
  split; [apply formatAnalysis_report|].
  split; [intros f Hin; apply report_holds_bullet; exact Hin|].
  split; [apply (report_ends_with_analysis _ (JStr X))|].
  split.
  - repeat rewrite <- app_assoc. reflexivity.
  - unfold count_events. cbn [app filter is_create is_open].
    rewrite !filter_app, !filter_reads by reflexivity. split; reflexivity.
Qed.

(** A click that gets to the analyzer with the texts [noteContents] makes
    one request, the one built from the stored key and those texts. *)
Lemma run_reaching_analyzer (E : Engine) (host : Host) (w : World E)
      (noteContents : list string) :
  falsy (apiKey (settings w)) = false ->
  sampled E 10 w <> [] ->
  Promise_all (map (read_outcome host (vault w)) (sampled E 10 w)) = inr noteContents ->
  exists evs,
    trace (snd (onRibbonClick E host w)) = (trace w ++ evs)%list
    /\ filter is_fetch evs
       = [EvFetch (completion_request (apiKey (settings w)) (prompt noteContents))].
Proof.
  intros Hkey Hsome Hreads.
  destruct (reply host (apiKey (settings w)) noteContents) as [e|analysis] eqn:Hreply.
  { rewrite (run_reply_failure E host w noteContents e Hkey Hsome Hreads Hreply).
    eexists. split; [reflexivity|].
    cbn [app filter is_fetch]. rewrite filter_app, filter_reads by reflexivity.
    reflexivity. }
  destruct (existsb (fun entry => String.eqb (path (fst entry)) (analysis_path (now host)))
                    (vault w)) eqn:Htaken.
  - rewrite (run_name_taken E host w noteContents analysis Hkey Hsome Hreads Hreply Htaken).
    eexists. split; [reflexivity|].
    cbn [app filter is_fetch]. rewrite filter_app, filter_reads by reflexivity.
    reflexivity.
  - rewrite (run_success E host w noteContents analysis Hkey Hsome Hreads Hreply Htaken).
    eexists. split; [reflexivity|].
    cbn [app filter is_fetch]. rewrite filter_app, filter_reads by reflexivity.
    reflexivity.
Qed.

(** C10.  A click stops at the key check, with the notice that asks for
    the key as its only event, if and only if the stored key is the empty
    string.  With any other key the click goes on to list the files, and
    each request it makes carries that key, as it is stored, after
    [Bearer ] in the Authorization header.  And the key is sent: with any
    key that is not empty, a click on a vault that lists a Markdown file
    and whose reads succeed makes a request, one and no more, whose
    Authorization header is [Bearer ] followed by the key as it is stored. *)
Theorem key_check_iff_empty (E : Engine) (host : Host) (w : World E) :
  let w' := snd (onRibbonClick E host w) in
  (trace w'
   = (trace w ++ [EvNotice "Please set your OpenAI API key in the plugin settings"])%list
   <-> apiKey (settings w) = EmptyString)
  /\ (apiKey (settings w) <> EmptyString ->
      exists evs,
        trace w' = (trace w ++ EvGetMarkdownFiles :: evs)%list
        /\ forall req,
             In (EvFetch req) evs ->
             headers req = [ ("Authorization", "Bearer " ++ apiKey (settings w));
                             ("Content-Type", "application/json") ])
  /\ (apiKey (settings w) <> EmptyString ->
      EngineOk E ->
      markdown_files (vault w) <> [] ->
      (forall f, read_fault host f = None) ->
      exists evs req,
        trace w' = (trace w ++ evs)%list
        /\ filter is_fetch evs = [EvFetch req]
        /\ url req = "https://api.openai.com/v1/chat/completions"
        /\ headers req = [ ("Authorization", "Bearer " ++ apiKey (settings w));
                           ("Content-Type", "application/json") ]).
Proof.
  intros w'. subst w'.
  destruct (falsy (apiKey (settings w))) eqn:Hkey.
  - pose proof (proj1 (falsy_true_iff _) Hkey) as Hempty.
    rewrite (run_without_key E host w Hkey). cbn [snd world_after trace].
    split; [split; [intros _; exact Hempty | intros _; reflexivity]|].
    split; intros Hset; contradiction.
  - pose proof (proj1 (falsy_false_iff _) Hkey) as Hset.
    split; [|split].
    + destruct (run_with_key E host w Hkey) as (v & g & evs & Hrun & Hfetch).
      rewrite Hrun. cbn [snd world_after trace].
      split; [|intros Hempty; contradiction].
      intros Htrace. apply app_inv_head in Htrace. discriminate.
    + destruct (run_with_key E host w Hkey) as (v & g & evs & Hrun & Hfetch).
      rewrite Hrun. cbn [snd world_after trace].
      intros _. exists evs. split; [reflexivity|].
      intros req Hin.
      assert (Hin' : In (EvFetch req) (filter is_fetch evs))
        by (apply filter_In; split; [exact Hin | reflexivity]).
      destruct Hfetch as [Hnone | [noteContents Hone]].
      * rewrite Hnone in Hin'. destruct Hin'.
      * rewrite Hone in Hin'. destruct Hin' as [Heq | []].
        inversion Heq. reflexivity.
    + intros _ Hok Hfiles Hreadable.
      pose proof (sampled_nonempty E w 10 Hok ltac:(lia) Hfiles) as Hsome.
      destruct (Promise_all_fulfilled (map (read_outcome host (vault w)) (sampled E 10 w)))
        as [noteContents Hreads].
      { intros p Hp. apply in_map_iff in Hp. destruct Hp as [f [Hf Hin]]. subst p.
        apply read_outcome_listed; [apply Hreadable|].
        apply (sampled_subset E w 10 f Hok ltac:(lia) Hin). }
      destruct (run_reaching_analyzer E host w noteContents Hkey Hsome Hreads)
        as (evs & Htrace & Hfetch).
      exists evs, (completion_request (apiKey (settings w)) (prompt noteContents)).
      split; [exact Htrace|]. split; [exact Hfetch|]. split; reflexivity.
Qed.

(* ===================================================================== *)
(** * Failures before the report is created *)
(* ===================================================================== *)

Lemma Get_throws_iff (v : JSValue) (key : string) :
  (exists e, Get v key = inl e) <-> nullish v = true.
Proof.
  destruct v; simpl; split; intros H;
    first [ reflexivity | discriminate | destruct H; discriminate | eexists; reflexivity ].
Qed.

Lemma GetIndex_throws_iff (v : JSValue) (i : nat) :
  (exists e, GetIndex v i = inl e) <-> nullish v = true.
Proof.
  destruct v; simpl; split; intros H;
    first [ reflexivity | discriminate | destruct H; discriminate | eexists; reflexivity ].
Qed.

Lemma Get_of_value (v : JSValue) (key : string) :
  nullish v = false -> exists x, Get v key = inr x.
Proof. destruct v; simpl; intros H; try discriminate; eexists; reflexivity. Qed.

Lemma GetIndex_of_value (v : JSValue) (i : nat) :
  nullish v = false -> exists x, GetIndex v i = inr x.
Proof. destruct v; simpl; intros H; try discriminate; eexists; reflexivity. Qed.

(** The reads of [data.choices[0].message.content] throw exactly when one
    of the four values read from is [undefined] or [null]; a message that
    only lacks [content] gives [undefined] without a throw. *)
Lemma read_content_throws_iff (data : JSValue) :
  (exists e, read_content data = inl e) <-> content_read_throws data = true.
Proof.
  unfold read_content, content_read_throws.
  destruct (nullish data) eqn:Hdata.
  { destruct (proj2 (Get_throws_iff data "choices") Hdata) as [e He]. rewrite He.
    split; [reflexivity | intros _; exists e; reflexivity]. }
  destruct (Get_of_value data "choices" Hdata) as [choices Hchoices]. rewrite Hchoices.
  cbn [orb].
  destruct (nullish choices) eqn:Hnull.
  { destruct (proj2 (GetIndex_throws_iff choices 0) Hnull) as [e He]. rewrite He.
    split; [reflexivity | intros _; exists e; reflexivity]. }
  destruct (GetIndex_of_value choices 0 Hnull) as [choice Hchoice]. rewrite Hchoice.
  cbn [orb].
  destruct (nullish choice) eqn:Hnull0.
  { destruct (proj2 (Get_throws_iff choice "message") Hnull0) as [e He]. rewrite He.
    split; [reflexivity | intros _; exists e; reflexivity]. }
  destruct (Get_of_value choice "message" Hnull0) as [msg Hmsg]. rewrite Hmsg.
  cbn [orb].
  apply Get_throws_iff.
Qed.

Lemma StepFails_outcome (host : Host) (key : string) (v : list (TFile * string))
      (notes : list TFile) (e : Error) :
  StepFails host key v notes e ->
  Promise_all (map (read_outcome host v) notes) = inl e
  \/ exists noteContents,
       Promise_all (map (read_outcome host v) notes) = inr noteContents
       /\ reply host key noteContents = inl e.
Proof.
  intros Hfail. unfold reply.
  destruct Hfail as [e Hreads
                    | noteContents e Hreads Hanswer
                    | noteContents response Hreads Hanswer Hstatus
                    | noteContents response e Hreads Hanswer Hstatus Hjson
                    | noteContents response data e Hreads Hanswer Hstatus Hjson Hread].
  - left. exact Hreads.
  - right. exists noteContents. rewrite Hanswer. split; [exact Hreads | reflexivity].
  - right. exists noteContents. rewrite Hanswer, Hstatus. split; [exact Hreads | reflexivity].
  - right. exists noteContents. rewrite Hanswer, Hstatus, Hjson.
    split; [exact Hreads | reflexivity].
  - right. exists noteContents. rewrite Hanswer, Hstatus, Hjson.
    split; [exact Hreads | exact Hread].
Qed.

(** C9, as the code has it.  When a step of a run that has sampled notes
    throws before the report is created (a read of a note is rejected, the
    request is rejected or answered with a status outside 200..299, the
    body is not JSON, or a read on the way to [choices[0].message.content]
    throws), the run ends normally with the vault as it was: no document
    is created and none is opened, and the last two events are one notice
    with the message of the error and one console record of it. *)
Theorem failed_step_leaves_vault (E : Engine) (host : Host) (w : World E) (e : Error) :
  EngineOk E ->
  apiKey (settings w) <> EmptyString ->
  markdown_files (vault w) <> [] ->
  StepFails host (apiKey (settings w)) (vault w) (sampled E 10 w) e ->
  let w' := snd (onRibbonClick E host w) in
  fst (onRibbonClick E host w) = inr tt
  /\ vault w' = vault w
  /\ exists evs,
       trace w' = (trace w ++ evs ++ [EvNotice ("Error: " ++ message e); EvConsoleError e])%list
       /\ count_events is_create evs = 0
       /\ count_events is_open evs = 0
       /\ count_events is_console evs = 0
       /\ count_events is_notice evs = 1.
Proof.
  intros Hok Hkey Hfiles Hfail w'. subst w'.
  apply falsy_false_iff in Hkey.
  pose proof (sampled_nonempty E w 10 Hok ltac:(lia) Hfiles) as Hsome.
  destruct (StepFails_outcome _ _ _ _ _ Hfail)
    as [Hreads | [noteContents [Hreads Hreply]]].
  - rewrite (run_read_failure E host w e Hkey Hsome Hreads).
    cbn [fst snd world_after vault trace].
    split; [reflexivity|]. split; [reflexivity|].
    exists ([EvGetMarkdownFiles; EvNotice (analyzing_notice (List.length (sampled E 10 w)))]
            ++ map EvRead (sampled E 10 w))%list.
    split; [unfold failure_events; repeat rewrite <- app_assoc; reflexivity|].
    unfold count_events. cbn [app filter is_create is_open is_console is_notice].
    rewrite !filter_reads by reflexivity. repeat split; reflexivity.
  - rewrite (run_reply_failure E host w noteContents e Hkey Hsome Hreads Hreply).
    cbn [fst snd world_after vault trace].
    split; [reflexivity|]. split; [reflexivity|].
    exists ([EvGetMarkdownFiles; EvNotice (analyzing_notice (List.length (sampled E 10 w)))]
            ++ map EvRead (sampled E 10 w)
            ++ [EvFetch (completion_request (apiKey (settings w)) (prompt noteContents))])%list.
    split; [unfold failure_events; repeat rewrite <- app_assoc; reflexivity|].
    unfold count_events. cbn [app filter is_create is_open is_console is_notice].
    rewrite !filter_app, !filter_reads by reflexivity. repeat split; reflexivity.
Qed.

(* ===================================================================== *)
(** * The theorems at sample inputs *)
(* ===================================================================== *)

(** A count below zero is an offset from the end for [slice]: it is outside
    what C1 speaks of. *)
Example getRandomNotes_minus_one :
  List.length (markdown_files Sample.files) = 3
  /\ List.length (sampled insertion_engine (-1) (Sample.world "sk-test" Sample.files)) = 2.
Proof. vm_compute. split; reflexivity. Qed.

Lemma sample_files_distinct : NoDup (markdown_files Sample.files).
Proof.
  vm_compute.
  repeat (constructor; [simpl; intuition discriminate|]). constructor.
Qed.

Lemma getRandomNotes_sample_witness :
  let w := Sample.world "sk-test" Sample.files in
  let files := markdown_files (vault w) in
  exists sample w',
    getRandomNotes insertion_engine 2 w = (inr sample, w')
    /\ Z.of_nat (List.length sample) = 2%Z
    /\ (exists rest, Permutation (sample ++ rest) files)
    /\ NoDup sample
    /\ (forall f, In f sample -> In f files).
Proof.
  destruct (getRandomNotes_sample insertion_engine (Sample.world "sk-test" Sample.files) 2
              insertion_engine_ok ltac:(lia))
    as (sample & w' & Hrun & Hsize & Hperm & Hdistinct & Hmember).
  exists sample, w'.
  split; [exact Hrun|]. split; [exact Hsize|]. split; [exact Hperm|].
  split; [exact (Hdistinct sample_files_distinct) | exact Hmember].
Defined.

Lemma prompt_numbers_each_body_witness :
  let bodies := ["alpha"; EmptyString; "---"] in
  substring (block_start bodies 2) (String.length (note_block "---" 2)) (prompt bodies)
  = note_label 2 ++ Str.LF ++ "---" ++ Str.LF ++ "---"
  /\ block_start bodies 3
     = block_start bodies 2 + String.length (note_block "---" 2) + 1.
Proof.
  apply (proj1 (prompt_numbers_each_body ["alpha"; EmptyString; "---"]) 2 "---").
  reflexivity.
Defined.

Lemma analyzeWithGPT4_response_witness :
  let w := Sample.world "sk-test" Sample.files in
  fst (analyzeWithGPT4 insertion_engine Sample.host ["alpha"] w) = inr (JStr "Z")
  /\ fst (analyzeWithGPT4 insertion_engine (Sample.answering 503 Sample.error_body)
            ["alpha"] w)
     = inl (new_Error "Failed to get response from GPT-4").
Proof.
  split.
  - apply (proj1 (analyzeWithGPT4_response insertion_engine Sample.host
                    (Sample.world "sk-test" Sample.files) ["alpha"]
                    {| status := 200; json := inr (Sample.completion "Z") |} eq_refl)
             (Sample.completion "Z") "Z"); reflexivity.
  - apply (proj1 (proj2 (analyzeWithGPT4_response insertion_engine
                           (Sample.answering 503 Sample.error_body)
                           (Sample.world "sk-test" Sample.files) ["alpha"]
                           {| status := 503; json := inr Sample.error_body |} eq_refl))).
    right. simpl. lia.
Defined.

Lemma empty_key_aborts_witness :
  let run := onRibbonClick insertion_engine Sample.host (Sample.world EmptyString Sample.files) in
  fst run = inr tt
  /\ trace (snd run) = [EvNotice "Please set your OpenAI API key in the plugin settings"]
  /\ vault (snd run) = Sample.files
  /\ count_events is_notice (trace (snd run)) = 1
  /\ count_events is_fetch (trace (snd run)) = 0
  /\ count_events is_create (trace (snd run)) = 0.
Proof.
  apply (empty_key_aborts insertion_engine Sample.host (Sample.world EmptyString Sample.files)).
  reflexivity.
Defined.

Lemma empty_vault_aborts_witness :
  let w := Sample.world "sk-test" [(TFile_of_path "picture.png", "binary")] in
  let w' := snd (onRibbonClick insertion_engine Sample.host w) in
  (forall count, fst (getRandomNotes insertion_engine count w) = inr [])
  /\ fst (onRibbonClick insertion_engine Sample.host w) = inr tt
  /\ trace w' = [EvGetMarkdownFiles; EvNotice "No notes found in vault"]
  /\ vault w' = vault w
  /\ count_events is_fetch (trace w') = 0
  /\ count_events is_create (trace w') = 0.
Proof.
  destruct (empty_vault_aborts insertion_engine Sample.host
              (Sample.world "sk-test" [(TFile_of_path "picture.png", "binary")])
              insertion_engine_ok eq_refl)
    as (Hsampler & Hrun & Hrest).
  split; [exact Hsampler|].
  destruct Hrun as [Hreturns Htrace]; [discriminate|].
  split; [exact Hreturns|]. split; [exact Htrace | exact Hrest].
Defined.

Lemma successful_run_writes_report_witness :
  let w := Sample.world "sk-test" Sample.files in
  let w' := snd (onRibbonClick insertion_engine Sample.host w) in
  exists notes date evs,
    fst (getRandomNotes insertion_engine 10 w) = inr notes
    /\ fst (onRibbonClick insertion_engine Sample.host w) = inr tt
    /\ date = "2026-11-02"
    /\ yyyy_mm_dd date = true
    /\ let name := "Note Connections Analysis " ++ date ++ ".md" in
       let text := formatAnalysis notes (JStr "Z") in
       vault w' = (vault w ++ [(TFile_of_path name, text)])%list
       /\ path (TFile_of_path name) = name
       /\ text = report_template (map basename notes) "Z"
       /\ (forall f, In f notes ->
             exists before after, text = before ++ "- [[" ++ basename f ++ "]]" ++ after)
       /\ (exists before, text = before ++ "Z" ++ Str.LF)
       /\ trace w' = (trace w ++ evs ++ [EvCreate name text; EvOpen (TFile_of_path name)])%list
       /\ count_events is_create evs = 0
       /\ count_events is_open evs = 0.
Proof.
  apply (successful_run_writes_report insertion_engine Sample.host
           (Sample.world "sk-test" Sample.files)
           {| status := 200; json := inr (Sample.completion "Z") |}
           (Sample.completion "Z") "Z").
  - exact insertion_engine_ok.
  - discriminate.
  - vm_compute. discriminate.
  - intros f. reflexivity.
  - intros req. reflexivity.
  - reflexivity.
  - reflexivity.
  - reflexivity.
  - intros entry Hin. vm_compute in Hin.
    repeat (destruct Hin as [Hentry | Hin]; [subst entry; vm_compute; discriminate|]).
    destruct Hin.
  - reflexivity.
Defined.

Lemma one_completion_request_witness :
  let w := Sample.world "sk-test" Sample.files in
  let texts := ["beta"; EmptyString; "alpha"] in
  exists evs,
    trace (snd (onRibbonClick insertion_engine (Sample.answering 503 Sample.error_body) w))
    = (trace w ++ evs)%list
    /\ filter is_fetch evs
       = [EvFetch
            {| url := "https://api.openai.com/v1/chat/completions";
               method := "POST";
               headers := [ ("Authorization", "Bearer sk-test");
                            ("Content-Type", "application/json") ];
               body := Some ("{" ++ in_quotes "model" ++ ":" ++ in_quotes "gpt-4" ++ ","
                             ++ in_quotes "messages" ++ ":[{"
                             ++ in_quotes "role" ++ ":" ++ in_quotes "user" ++ ","
                             ++ in_quotes "content" ++ ":"
                             ++ in_quotes (escape (prompt texts))
                             ++ "}]," ++ in_quotes "temperature" ++ ":0.7}") |}].
Proof.
  apply (proj2 (proj2 (one_completion_request insertion_engine
                         (Sample.answering 503 Sample.error_body)
                         (Sample.world "sk-test" Sample.files)
                         ["beta"; EmptyString; "alpha"]))).
  - discriminate.
  - vm_compute. discriminate.
  - vm_compute. reflexivity.
Defined.

Lemma failed_step_leaves_vault_witness :
  let w := Sample.world "sk-test" Sample.files in
  let run := onRibbonClick insertion_engine (Sample.answering 200 Sample.error_body) w in
  let e := TypeError_read "undefined" "0" in
  fst run = inr tt
  /\ vault (snd run) = vault w
  /\ exists evs,
       trace (snd run)
       = (trace w ++ evs ++ [EvNotice ("Error: " ++ message e); EvConsoleError e])%list
       /\ count_events is_create evs = 0
       /\ count_events is_open evs = 0
       /\ count_events is_console evs = 0
       /\ count_events is_notice evs = 1.
Proof.
  apply (failed_step_leaves_vault insertion_engine (Sample.answering 200 Sample.error_body)
           (Sample.world "sk-test" Sample.files) (TypeError_read "undefined" "0")).
  - exact insertion_engine_ok.
  - discriminate.
  - vm_compute. discriminate.
  - apply (ContentReadThrows _ _ _ _ ["beta"; EmptyString; "alpha"]
             {| status := 200; json := inr Sample.error_body |} Sample.error_body);
      vm_compute; reflexivity.
Defined.

Lemma key_check_iff_empty_witness :
  let w := Sample.world " " Sample.files in
  let w' := snd (onRibbonClick insertion_engine Sample.host w) in
  (exists evs,
      trace w' = (trace w ++ EvGetMarkdownFiles :: evs)%list
      /\ forall req,
           In (EvFetch req) evs ->
           headers req = [ ("Authorization", "Bearer  ");
                           ("Content-Type", "application/json") ])
  /\ (exists evs req,
         trace w' = (trace w ++ evs)%list
         /\ filter is_fetch evs = [EvFetch req]
         /\ url req = "https://api.openai.com/v1/chat/completions"
         /\ headers req = [ ("Authorization", "Bearer  ");
                            ("Content-Type", "application/json") ]).
Proof.
  destruct (key_check_iff_empty insertion_engine Sample.host
              (Sample.world " " Sample.files))
    as (_ & Hpasses & Hsent).
  split.
  - apply Hpasses. discriminate.
  - apply Hsent.
    + discriminate.
    + exact insertion_engine_ok.
    + vm_compute. discriminate.
    + intros f. reflexivity.
Defined.

(** C9 as it was stated fails on a completion whose message has no
    [content]: the response lacks [choices[0].message.content], yet no read
    throws, the analysis is [undefined], and the report is created with
    that text and opened; no error notice is shown. *)
Lemma missing_content_still_writes_report :
  let host := Sample.answering 200 Sample.bare_completion in
  let w := Sample.world "sk-test" Sample.files in
  let run := onRibbonClick insertion_engine host w in
  let name := "Note Connections Analysis 2026-11-02.md" in
  first_choice_content Sample.bare_completion = None
  /\ read_content Sample.bare_completion = inr JUndefined
  /\ content_read_throws Sample.bare_completion = false
  /\ fst run = inr tt
  /\ vault (snd run)
     = (Sample.files
        ++ [(TFile_of_path name, report_template ["B"; "C"; "A"] "undefined")])%list
  /\ last (trace (snd run)) EvGetMarkdownFiles = EvOpen (TFile_of_path name)
  /\ count_events is_create (trace (snd run)) = 1
  /\ count_events is_notice (trace (snd run)) = 1
  /\ count_events is_console (trace (snd run)) = 0.
Proof. vm_compute. repeat split; reflexivity. Qed.

(* ===================================================================== *)
(** * Every way a click ends *)
(* ===================================================================== *)

Lemma click_outcome (E : Engine) (host : Host) (w : World E) :
  ClickOutcome E host w (onRibbonClick E host w).
Proof.
  destruct (falsy (apiKey (settings w))) eqn:Hkey.
  { rewrite (run_without_key E host w Hkey). apply NoKey. exact Hkey. }
  assert (Hcases : sampled E 10 w = [] \/ sampled E 10 w <> [])
    by (destruct (sampled E 10 w); [left; reflexivity | right; discriminate]).
  destruct Hcases as [Hnone | Hsome].
  { rewrite (run_without_notes E host w Hkey Hnone). apply NoNotes; assumption. }
  destruct (Promise_all (map (read_outcome host (vault w)) (sampled E 10 w)))
    as [e|noteContents] eqn:Hreads.
  { rewrite (run_read_failure E host w e Hkey Hsome Hreads). apply ReadFailed; assumption. }
  destruct (reply host (apiKey (settings w)) noteContents) as [e|analysis] eqn:Hreply.
  { rewrite (run_reply_failure E host w noteContents e Hkey Hsome Hreads Hreply).
    apply ReplyFailed; assumption. }
  destruct (existsb (fun entry => String.eqb (path (fst entry)) (analysis_path (now host)))
                    (vault w)) eqn:Htaken.
  - rewrite (run_name_taken E host w noteContents analysis Hkey Hsome Hreads Hreply Htaken).
    apply NameTaken; assumption.
  - rewrite (run_success E host w noteContents analysis Hkey Hsome Hreads Hreply Htaken).
    apply Written; assumption.
Qed.

Lemma app_eq_self {A : Type} (l r : list A) : (l ++ r)%list = l -> r = [].
Proof.
  intros H. rewrite <- (app_nil_r l) in H at 2. apply app_inv_head in H. exact H.
Qed.

Lemma reply_value (host : Host) (key : string) (noteContents : list string) (v : JSValue) :
  reply host key noteContents = inr v ->
  exists response data,
    transport host (completion_request key (prompt noteContents)) = inr response
    /\ ok response = true
    /\ json response = inr data
    /\ read_content data = inr v.
Proof.
  unfold reply. intros H.
  destruct (transport host _) as [e|response]; [discriminate|].
  destruct (ok response) eqn:Hok; [|discriminate].
  destruct (json response) as [e|data] eqn:Hjson; [discriminate|].
  exists response, data. split; [reflexivity|]. split; [exact Hok|].
  split; [exact Hjson | exact H].
Qed.


(** X2.  A click keeps every file of the vault with its text and in its
    place; what it may add is one file, at the path of the report. *)
Theorem click_keeps_vault (E : Engine) (host : Host) (w : World E) :
  vault (snd (onRibbonClick E host w)) = vault w
  \/ exists text,
       vault (snd (onRibbonClick E host w))
       = (vault w ++ [(TFile_of_path (analysis_path (now host)), text)])%list
       /\ forall entry, In entry (vault w) -> path (fst entry) <> analysis_path (now host).
Proof.
  destruct (click_outcome E host w)
    as [ | | | | | noteContents analysis Hkey Hsome Hreads Hreply Hfree];
    try (left; reflexivity).
  right. eexists. split; [reflexivity|].
  intros entry Hin Heq.
  assert (Htaken : existsb (fun entry => String.eqb (path (fst entry))
                                            (analysis_path (now host))) (vault w) = true).
  { apply existsb_exists. exists entry. split; [exact Hin|]. apply String.eqb_eq. exact Heq. }
  rewrite Htaken in Hfree. discriminate.
Qed.

(** X3.  A report is written only after an answer that counts: if a click
    changes the vault, a key is stored, and the transport has answered the
    request with a status in 200..299 and a JSON body on which no read on
    the way to [choices[0].message.content] throws. *)
Theorem report_needs_answer (E : Engine) (host : Host) (w : World E) :
  vault (snd (onRibbonClick E host w)) <> vault w ->
  apiKey (settings w) <> EmptyString
  /\ exists noteContents response data,
       transport host (completion_request (apiKey (settings w)) (prompt noteContents))
       = inr response
       /\ ok response = true
       /\ json response = inr data
       /\ content_read_throws data = false.
Proof.
  intros Hchanged.
  destruct (click_outcome E host w)
    as [ | | | | | noteContents analysis Hkey Hsome Hreads Hreply Hfree];
    try (exfalso; apply Hchanged; reflexivity).
  split; [apply falsy_false_iff; exact Hkey|].
  destruct (reply_value _ _ _ _ Hreply) as (response & data & Hanswer & Hok & Hjson & Hread).
  exists noteContents, response, data.
  repeat split; try assumption.
  destruct (content_read_throws data) eqn:Hthrows; [|reflexivity].
  apply read_content_throws_iff in Hthrows. destruct Hthrows as [e He].
  rewrite He in Hread. discriminate.
Qed.

(* ===================================================================== *)
(** * The sampler at its bounds *)
(* ===================================================================== *)

Lemma In_firstn {A : Type} (n : nat) (l : list A) (x : A) :
  In x (firstn n l) -> In x l.
Proof.
  intros Hin. rewrite <- (firstn_skipn n l). apply in_or_app. left. exact Hin.
Qed.

Lemma shuffled_perm (E : Engine) (w : World E) :
  EngineOk E ->
  Permutation (fst (shuffled_files E w)) (markdown_files (vault w)).
Proof. intros Hok. unfold shuffled_files. apply (Array_sort_perm E Hok). Qed.

(** X4.  When the vault lists no more Markdown files than the count asks
    for, [getRandomNotes] returns all of them, rearranged: with ten files
    or fewer a click analyses every note. *)
Theorem getRandomNotes_takes_all (E : Engine) (w : World E) (count : Z) :
  EngineOk E ->
  (Z.of_nat (List.length (markdown_files (vault w))) <= count)%Z ->
  exists sample w',
    getRandomNotes E count w = (inr sample, w')
    /\ Permutation sample (markdown_files (vault w)).
Proof.
  intros Hok Hfew. rewrite getRandomNotes_run.
  eexists. eexists. split; [reflexivity|].
  pose proof (shuffled_perm E w Hok) as Hperm.
  pose proof (Permutation_length Hperm) as Hlen.
  unfold sampled. rewrite Array_slice_head by lia.
  rewrite firstn_all2 by lia. exact Hperm.
Qed.

(** X5.  A count below zero reaches [slice] as an end position counted from
    the end of the array: for the count [-k], [getRandomNotes] returns the
    listed files but [k] of them, and none when there are not more than
    [k]. *)
Theorem getRandomNotes_negative_count (E : Engine) (w : World E) (count : Z) :
  EngineOk E ->
  (count < 0)%Z ->
  exists sample w',
    getRandomNotes E count w = (inr sample, w')
    /\ Z.of_nat (List.length sample)
       = Z.max (Z.of_nat (List.length (markdown_files (vault w))) + count) 0
    /\ forall f, In f sample -> In f (markdown_files (vault w)).
Proof.
  intros Hok Hneg. rewrite getRandomNotes_run.
  eexists. eexists. split; [reflexivity|].
  pose proof (shuffled_perm E w Hok) as Hperm.
  pose proof (Permutation_length Hperm) as Hlen.
  unfold sampled, Array_slice.
  set (shuffled := fst (shuffled_files E w)) in *.
  replace (Z.min count (Z.of_nat (List.length shuffled))) with count by lia.
  destruct (Z.ltb_spec count 0) as [_|Hge]; [|lia].
  change (0 <? 0)%Z with false. cbv iota.
  replace (Z.min 0 (Z.of_nat (List.length shuffled))) with 0%Z by lia.
  cbn [Z.to_nat skipn]. rewrite Z.sub_0_r.
  split.
  - rewrite length_firstn. lia.
  - intros f Hin. apply (Permutation_in f Hperm).
    apply (In_firstn _ _ _ Hin).
Qed.

(* ===================================================================== *)
(** * The reads of a click *)
(* ===================================================================== *)

Lemma Promise_all_cons {A : Type} (p : Promise A) (rest : list (Promise A)) :
  Promise_all (p :: rest)
  = match p with
    | inl e => inl e
    | inr a => match Promise_all rest with
               | inl e => inl e
               | inr l => inr (a :: l)
               end
    end.
Proof. destruct p; reflexivity. Qed.

Lemma Promise_all_positions {A B : Type} (f : A -> Promise B) (l : list A) (values : list B) :
  Promise_all (map f l) = inr values ->
  Forall2 (fun x v => f x = inr v) l values.
Proof.
  revert values. induction l as [|x rest IH]; intros values Hall.
  - cbv in Hall. inversion Hall. constructor.
  - cbn [map] in Hall. rewrite Promise_all_cons in Hall.
    destruct (f x) as [e|v] eqn:Hx; [discriminate|].
    destruct (Promise_all (map f rest)) as [e|vs]; [discriminate|].
    inversion Hall; subst. constructor; [exact Hx | apply IH; reflexivity].
Qed.

Lemma Promise_all_rejected {A B : Type} (f : A -> Promise B) (l : list A) (x : A) (e : Error) :
  In x l -> f x = inl e -> exists e', Promise_all (map f l) = inl e'.
Proof.
  induction l as [|y rest IH]; intros Hin Hx; [destruct Hin|].
  cbn [map]. rewrite Promise_all_cons.
  destruct (f y) as [e0|v] eqn:Hy; [exists e0; reflexivity|].
  destruct Hin as [Heq | Hin]; [subst y; congruence|].
  destruct (IH Hin Hx) as [e' He']. rewrite He'. exists e'. reflexivity.
Qed.

Lemma filter_reads_all (notes : list TFile) :
  filter is_read (map EvRead notes) = map EvRead notes.
Proof. induction notes as [|f rest IH]; [reflexivity|]. cbn. rewrite IH. reflexivity. Qed.

Lemma sampled_distinct (E : Engine) (w : World E) (count : Z) :
  EngineOk E ->
  (0 <= count)%Z ->
  NoDup (markdown_files (vault w)) -> NoDup (sampled E count w).
Proof.
  intros Hok Hcount Hnodup.
  destruct (sampled_spec E w count Hok Hcount) as [_ [rest Hperm]].
  apply NoDup_app_left with (r := rest).
  apply (Permutation_NoDup (Permutation_sym Hperm)). exact Hnodup.
Qed.

(** X6.  A click reads at most ten notes, and no more than the vault
    lists: the reads it starts are the reads of its sample, each of a
    listed Markdown file, and of no file twice when the vault lists none
    twice. *)
Theorem click_reads_at_most_ten (E : Engine) (host : Host) (w : World E) :
  EngineOk E ->
  exists evs notes,
    trace (snd (onRibbonClick E host w)) = (trace w ++ evs)%list
    /\ filter is_read evs = map EvRead notes
    /\ List.length notes <= 10
    /\ List.length notes <= List.length (markdown_files (vault w))
    /\ (forall f, In f notes -> In f (markdown_files (vault w)))
    /\ (NoDup (markdown_files (vault w)) -> NoDup notes).
Proof.
  intros Hok.
  destruct (sampled_spec E w 10 Hok ltac:(lia)) as [Hlen _].
  assert (Hsample :
            List.length (sampled E 10 w) <= 10
            /\ List.length (sampled E 10 w) <= List.length (markdown_files (vault w))
            /\ (forall f, In f (sampled E 10 w) -> In f (markdown_files (vault w)))
            /\ (NoDup (markdown_files (vault w)) -> NoDup (sampled E 10 w))).
  { split; [lia|]. split; [lia|]. split.
    - intros f Hin. apply (sampled_subset E w 10 f Hok ltac:(lia) Hin).
    - apply sampled_distinct; [exact Hok | lia]. }
  assert (Hnone :
            List.length (@nil TFile) <= 10
            /\ List.length (@nil TFile) <= List.length (markdown_files (vault w))
            /\ (forall f, In f (@nil TFile) -> In f (markdown_files (vault w)))
            /\ (NoDup (markdown_files (vault w)) -> NoDup (@nil TFile))).
  { cbn. split; [lia|]. split; [lia|]. split; [intros f []|]. intros _. constructor. }
  destruct (click_outcome E host w); cbn [snd world_after trace].
  - eexists. exists []. split; [reflexivity|]. split; [reflexivity | exact Hnone].
  - eexists. exists []. split; [reflexivity|]. split; [reflexivity | exact Hnone].
  - eexists. exists (sampled E 10 w). split; [reflexivity|]. split; [|exact Hsample].
    cbn [app filter is_read]. rewrite filter_app, filter_reads_all.
    unfold failure_events. cbn. rewrite app_nil_r. reflexivity.
  - eexists. exists (sampled E 10 w). split; [reflexivity|]. split; [|exact Hsample].
    cbn [app filter is_read]. rewrite filter_app, filter_reads_all.
    unfold failure_events. cbn. rewrite app_nil_r. reflexivity.
  - eexists. exists (sampled E 10 w). split; [reflexivity|]. split; [|exact Hsample].
    cbn [app filter is_read]. rewrite filter_app, filter_reads_all.
    unfold failure_events. cbn. rewrite app_nil_r. reflexivity.
  - eexists. exists (sampled E 10 w). split; [reflexivity|]. split; [|exact Hsample].
    cbn [app filter is_read]. rewrite filter_app, filter_reads_all.
    cbn. rewrite app_nil_r. reflexivity.
Qed.

(** X7.  When the read of a sampled note fails, the click sends nothing:
    the reads of all sampled notes were started, no request is made, no
    document is created, and the failure is shown in a notice. *)
Theorem failed_read_sends_nothing (E : Engine) (host : Host) (w : World E)
        (notes : list TFile) (f : TFile) (e : Error) :
  apiKey (settings w) <> EmptyString ->
  fst (getRandomNotes E 10 w) = inr notes ->
  In f notes ->
  read_fault host f = Some e ->
  exists evs e',
    trace (snd (onRibbonClick E host w)) = (trace w ++ evs)%list
    /\ filter is_read evs = map EvRead notes
    /\ filter is_fetch evs = []
    /\ filter is_create evs = []
    /\ In (EvNotice ("Error: " ++ message e')) evs
    /\ vault (snd (onRibbonClick E host w)) = vault w.
Proof.
  intros Hkey Hnotes Hin Hfault. apply falsy_false_iff in Hkey.
  rewrite getRandomNotes_run in Hnotes. cbn [fst] in Hnotes.
  inversion Hnotes as [Hsample]. clear Hnotes.
  assert (Hread : read_outcome host (vault w) f = inl e)
    by (unfold read_outcome; rewrite Hfault; reflexivity).
  rewrite <- Hsample in Hin.
  destruct (Promise_all_rejected (read_outcome host (vault w)) _ f e Hin Hread) as [e' Hreads].
  assert (Hsome : sampled E 10 w <> []) by (intros Hnil; rewrite Hnil in Hin; destruct Hin).
  rewrite (run_read_failure E host w e' Hkey Hsome Hreads).
  cbn [snd world_after trace vault].
  eexists. exists e'. split; [reflexivity|].
  unfold failure_events.
  split; [cbn [app filter is_read]; rewrite filter_app, filter_reads_all;
          cbn; rewrite app_nil_r; reflexivity|].
  split; [cbn [app filter is_fetch]; rewrite filter_app, filter_reads by reflexivity;
          reflexivity|].
  split; [cbn [app filter is_create]; rewrite filter_app, filter_reads by reflexivity;
          reflexivity|].
  split; [|reflexivity].
  cbn [app]. right. right. apply in_or_app. right. left. reflexivity.
Qed.

(* ===================================================================== *)
(** * The report and its name *)
(* ===================================================================== *)

Lemma analysis_path_same_day (d1 d2 : Date) :
  same_day d1 d2 -> analysis_path d1 = analysis_path d2.
Proof.
  intros (Hyear & Hmonth & Hday). rewrite !analysis_path_date.
  unfold iso_date. rewrite Hyear, Hmonth, Hday. reflexivity.
Qed.

Lemma name_taken (v : list (TFile * string)) (p : string) (entry : TFile * string) :
  In entry v -> path (fst entry) = p ->
  existsb (fun entry => String.eqb (path (fst entry)) p) v = true.
Proof.
  intros Hin Hpath. apply existsb_exists. exists entry.
  split; [exact Hin | apply String.eqb_eq; exact Hpath].
Qed.

Lemma click_keeps_vault_cases (E : Engine) (host : Host) (w : World E) :
  vault (snd (onRibbonClick E host w)) = vault w
  \/ exists text,
       vault (snd (onRibbonClick E host w))
       = (vault w ++ [(TFile_of_path (analysis_path (now host)), text)])%list.
Proof.
  destruct (click_outcome E host w); try (left; reflexivity).
  right. eexists. reflexivity.
Qed.

Lemma taken_name_vault (E : Engine) (host : Host) (w : World E) (entry : TFile * string) :
  In entry (vault w) ->
  path (fst entry) = analysis_path (now host) ->
  vault (snd (onRibbonClick E host w)) = vault w.
Proof.
  intros Hin Hpath. pose proof (name_taken _ _ _ Hin Hpath) as Htaken.
  destruct (click_outcome E host w)
    as [ | | | | | noteContents analysis Hkey Hsome Hreads Hreply Hfree];
    try reflexivity.
  rewrite Htaken in Hfree. discriminate.
Qed.

(** X8.  A click never writes over a file: when the vault already has a
    file at the path of the report, the click leaves the vault as it is
    and opens nothing, and if it got as far as asking for the creation,
    it shows the error of the host in a notice. *)
Theorem taken_name_blocks_report (E : Engine) (host : Host) (w : World E)
        (entry : TFile * string) :
  In entry (vault w) ->
  path (fst entry) = analysis_path (now host) ->
  vault (snd (onRibbonClick E host w)) = vault w
  /\ exists evs,
       trace (snd (onRibbonClick E host w)) = (trace w ++ evs)%list
       /\ filter is_open evs = []
       /\ (forall p text, In (EvCreate p text) evs ->
             In (EvNotice "Error: File already exists.") evs).
Proof.
  intros Hin Hpath. pose proof (name_taken _ _ _ Hin Hpath) as Htaken.
  destruct (click_outcome E host w)
    as [ | | e | noteContents e | noteContents analysis
         | noteContents analysis Hkey Hsome Hreads Hreply Hfree];
    cbn [snd world_after trace vault].
  - split; [reflexivity|]. eexists. split; [reflexivity|]. split; [reflexivity|].
    intros p text [Hev | []]. discriminate.
  - split; [reflexivity|]. eexists. split; [reflexivity|]. split; [reflexivity|].
    intros p text [Hev | [Hev | []]]; discriminate.
  - split; [reflexivity|]. eexists. split; [reflexivity|].
    split; [cbn [app filter is_open]; rewrite filter_app, filter_reads by reflexivity;
            reflexivity|].
    intros p text Hev. exfalso. cbn [app] in Hev.
    destruct Hev as [Hev | [Hev | Hev]]; try discriminate.
    apply in_app_or in Hev. destruct Hev as [Hev | Hev].
    + apply in_map_iff in Hev. destruct Hev as [x [Hx _]]. discriminate.
    + destruct Hev as [Hev | [Hev | []]]; discriminate.
  - split; [reflexivity|]. eexists. split; [reflexivity|].
    split; [cbn [app filter is_open]; rewrite filter_app, filter_reads by reflexivity;
            reflexivity|].
    intros p text Hev. exfalso. cbn [app] in Hev.
    destruct Hev as [Hev | [Hev | Hev]]; try discriminate.
    apply in_app_or in Hev. destruct Hev as [Hev | Hev].
    + apply in_map_iff in Hev. destruct Hev as [x [Hx _]]. discriminate.
    + destruct Hev as [Hev | [Hev | [Hev | []]]]; discriminate.
  - split; [reflexivity|]. eexists. split; [reflexivity|].
    split; [cbn [app filter is_open]; rewrite filter_app, filter_reads by reflexivity;
            reflexivity|].
    intros p text _. cbn [app]. right. right. apply in_or_app. right.
    right. right. left. reflexivity.
  - rewrite Htaken in Hfree. discriminate.
Qed.

(** X9.  One report a day: after a click that wrote a report, a click on
    the same UTC day, at whatever time and with whatever answer of the
    transport, leaves the vault as the first click left it. *)
Theorem second_click_same_day (E : Engine) (host later : Host) (w : World E) :
  vault (snd (onRibbonClick E host w)) <> vault w ->
  same_day (now host) (now later) ->
  vault (snd (onRibbonClick E later (snd (onRibbonClick E host w))))
  = vault (snd (onRibbonClick E host w)).
Proof.
  intros Hwritten Hday.
  destruct (click_keeps_vault_cases E host w) as [Hsame | [text Hadded]];
    [contradiction|].
  apply (taken_name_vault E later _
           (TFile_of_path (analysis_path (now host)), text)).
  - rewrite Hadded. apply in_or_app. right. left. reflexivity.
  - cbn [fst]. rewrite TFile_of_path_path. apply analysis_path_same_day. exact Hday.
Qed.

Lemma reads_fulfilled (E : Engine) (host : Host) (w : World E) :
  EngineOk E ->
  (forall f, read_fault host f = None) ->
  exists noteContents,
    Promise_all (map (read_outcome host (vault w)) (sampled E 10 w)) = inr noteContents.
Proof.
  intros Hok Hreadable. apply Promise_all_fulfilled.
  intros p Hp. apply in_map_iff in Hp. destruct Hp as [f [Hf Hin]]. subst p.
  apply read_outcome_listed; [apply Hreadable|].
  apply (sampled_subset E w 10 f Hok ltac:(lia) Hin).
Qed.

(** X10.  The analysis is not checked to be a string: whatever value the
    read of [choices[0].message.content] gives among those that a template
    literal converts without a throw (a string, a number, [null],
    [undefined] for a message without content, an object or an array that
    holds no own [toString]), the click writes the report with the
    conversion of that value to a string under the analysis heading, opens
    it, and shows no error. *)
Theorem any_content_is_written (E : Engine) (host : Host) (w : World E)
        (response : Response) (data v : JSValue) :
  EngineOk E ->
  apiKey (settings w) <> EmptyString ->
  markdown_files (vault w) <> [] ->
  (forall f, read_fault host f = None) ->
  (forall req, transport host req = inr response) ->
  ok response = true ->
  json response = inr data ->
  read_content data = inr v ->
  converts v = true ->
  (forall entry, In entry (vault w) -> path (fst entry) <> analysis_path (now host)) ->
  let w' := snd (onRibbonClick E host w) in
  exists notes before evs,
    fst (getRandomNotes E 10 w) = inr notes
    /\ formatAnalysis notes v = before ++ ToString v ++ Str.LF
    /\ vault w'
       = (vault w ++ [(TFile_of_path (analysis_path (now host)),
                       (before ++ ToString v ++ Str.LF)%string)])%list
    /\ trace w' = (trace w ++ evs ++ [EvOpen (TFile_of_path (analysis_path (now host)))])%list
    /\ filter is_console evs = [].
Proof.
  intros Hok Hkey Hfiles Hreadable Hanswer Hstatus Hjson Hread _ Hfree w'. subst w'.
  apply falsy_false_iff in Hkey.
  pose proof (sampled_nonempty E w 10 Hok ltac:(lia) Hfiles) as Hsome.
  destruct (reads_fulfilled E host w Hok Hreadable) as [noteContents Hreads].
  assert (Hreply : reply host (apiKey (settings w)) noteContents = inr v)
    by (unfold reply; rewrite Hanswer, Hstatus, Hjson; exact Hread).
  pose proof (name_free (vault w) _ Hfree) as Hname.
  rewrite (run_success E host w noteContents v Hkey Hsome Hreads Hreply Hname).
  rewrite getRandomNotes_run. cbn [fst snd world_after vault trace].
  destruct (report_ends_with_analysis (sampled E 10 w) v) as [before Hbefore].
  exists (sampled E 10 w), before.
  exists ([EvGetMarkdownFiles; EvNotice (analyzing_notice (List.length (sampled E 10 w)))]
          ++ map EvRead (sampled E 10 w)
          ++ [ EvFetch (completion_request (apiKey (settings w)) (prompt noteContents));
               EvCreate (analysis_path (now host)) (formatAnalysis (sampled E 10 w) v) ])%list.
  split; [reflexivity|]. split; [exact Hbefore|].
  split; [rewrite Hbefore; reflexivity|].
  split; [repeat rewrite <- app_assoc; reflexivity|].
  cbn [app filter is_console]. rewrite filter_app, filter_reads by reflexivity.
  reflexivity.
Qed.

(** X11.  The report and the prompt go by the same order: when a click has
    written a report, the notes it lists and the texts of the prompt it
    sent stand in the same positions, the text at a position being what
    the read of the note at that position gave.  The note under the label
    with the number [i] in the prompt is the one of the bullet [i] of the
    report. *)
Theorem report_and_prompt_agree (E : Engine) (host : Host) (w : World E) :
  vault (snd (onRibbonClick E host w)) <> vault w ->
  exists notes texts analysis evs,
    fst (getRandomNotes E 10 w) = inr notes
    /\ Forall2 (fun file text => read_outcome host (vault w) file = inr text) notes texts
    /\ trace (snd (onRibbonClick E host w)) = (trace w ++ evs)%list
    /\ filter is_fetch evs
       = [EvFetch (completion_request (apiKey (settings w)) (prompt texts))]
    /\ filter is_create evs
       = [EvCreate (analysis_path (now host)) (formatAnalysis notes analysis)].
Proof.
  intros Hchanged.
  destruct (click_outcome E host w)
    as [ | | | | | noteContents analysis Hkey Hsome Hreads Hreply Hfree];
    try (exfalso; apply Hchanged; reflexivity).
  rewrite getRandomNotes_run. cbn [fst snd world_after trace].
  exists (sampled E 10 w), noteContents, analysis. eexists.
  split; [reflexivity|].
  split; [apply Promise_all_positions; exact Hreads|].
  split; [reflexivity|].
  split.
  - cbn [app filter is_fetch]. rewrite filter_app, filter_reads by reflexivity. reflexivity.
  - cbn [app filter is_create]. rewrite filter_app, filter_reads by reflexivity. reflexivity.
Qed.

(* ===================================================================== *)
(** * The prompt and the text of the notes *)
(* ===================================================================== *)

(** X12.  The text of a note is put into the prompt as it is: a note whose
    text holds the rule and a label reads as two notes.  For all texts [a]
    and [b], the one note [a], rule, [Note 2:], [b] gives the same prompt
    as the two notes [a] and [b]. *)
Theorem prompt_takes_forged_note (a b : string) :
  prompt [forged_note a b] = prompt [a; b]
  /\ [forged_note a b] <> [a; b].
Proof.
  split; [|discriminate].
  unfold prompt, Array_mapi. cbn [Array_mapi_from Str.join String.concat].
  unfold note_block, forged_note.
  change (Str.of_nat (0 + 1)) with "1". change (Str.of_nat (1 + 1)) with "2".
  f_equal. repeat rewrite append_assoc. reflexivity.
Qed.

(* ===================================================================== *)
(** * The report is a note *)
(* ===================================================================== *)

Lemma digit_char_differs (x c : ascii) :
  is_digit x = true -> is_digit c = false -> Ascii.eqb x c = false.
Proof.
  intros Hx Hc. destruct (Ascii.eqb_spec x c) as [Heq|]; [|reflexivity].
  subst c. rewrite Hx in Hc. discriminate.
Qed.

Lemma mem_uint (c : ascii) (d : Decimal.uint) :
  is_digit c = false -> Str.mem c (NilEmpty.string_of_uint d) = false.
Proof.
  intros Hc. induction d as [|d IHd|d IHd|d IHd|d IHd|d IHd|d IHd|d IHd|d IHd|d IHd|d IHd];
    cbn [NilEmpty.string_of_uint Str.mem]; try reflexivity;
    rewrite IHd, orb_false_r; (apply digit_char_differs; [reflexivity | exact Hc]).
Qed.

Lemma mem_of_nat (c : ascii) (n : nat) :
  is_digit c = false -> Str.mem c (Str.of_nat n) = false.
Proof.
  intros Hc. unfold Str.of_nat, NilZero.string_of_uint.
  destruct (Nat.to_uint n) eqn:Hd; try (rewrite <- Hd; apply mem_uint; exact Hc).
  cbn [Str.mem]. rewrite orb_false_r. apply digit_char_differs; [reflexivity | exact Hc].
Qed.

Lemma mem_pad (c : ascii) (width n : nat) :
  is_digit c = false -> Str.mem c (pad width n) = false.
Proof.
  intros Hc. unfold pad, Str.padStart. rewrite mem_append, mem_of_nat, orb_false_r by exact Hc.
  apply mem_replicate. apply digit_char_differs; [reflexivity | exact Hc].
Qed.

Lemma mem_iso_date (c : ascii) (d : Date) :
  is_digit c = false ->
  Ascii.eqb "-" c = false ->
  Ascii.eqb "+" c = false ->
  Str.mem c (iso_date d) = false.
Proof.
  intros Hc Hminus Hplus. unfold iso_date, iso_year.
  destruct ((0 <=? year d) && (year d <=? 9999))%Z.
  - rewrite !mem_append, !mem_pad by exact Hc. cbn [Str.mem]. rewrite Hminus. reflexivity.
  - destruct (year d <? 0)%Z; rewrite !mem_append, !mem_pad by exact Hc;
      cbn [Str.mem]; rewrite Hminus, ?Hplus; reflexivity.
Qed.

Lemma split_none (sep : ascii) (a : string) :
  Str.mem sep a = false -> Str.split sep a = [a].
Proof.
  induction a as [|c a IH]; intros Hmem; [reflexivity|].
  simpl in Hmem. apply orb_false_elim in Hmem. destruct Hmem as [Hc Ha].
  simpl. rewrite Hc, (IH Ha). reflexivity.
Qed.

Lemma report_file (d : Date) :
  TFile_of_path (analysis_path d)
  = {| path := "Note Connections Analysis " ++ iso_date d ++ ".md";
       basename := "Note Connections Analysis " ++ iso_date d;
       extension := "md" |}.
Proof.
  rewrite analysis_path_date. unfold TFile_of_path.
  assert (Hslash : Str.mem "/" ("Note Connections Analysis " ++ iso_date d ++ ".md") = false).
  { rewrite !mem_append, mem_iso_date by reflexivity. reflexivity. }
  rewrite (split_none _ _ Hslash). cbn [last_piece last].
  assert (Hdot : Str.mem "." ("Note Connections Analysis " ++ iso_date d) = false).
  { rewrite mem_append, mem_iso_date by reflexivity. reflexivity. }
  replace ("Note Connections Analysis " ++ iso_date d ++ ".md")
    with (("Note Connections Analysis " ++ iso_date d) ++ String "." "md")
    by (rewrite append_assoc; reflexivity).
  rewrite (split_first _ _ _ Hdot).
  cbn [Str.split Ascii.eqb Bool.eqb].
  cbn [removelast last_piece last Str.join String.concat]. reflexivity.
Qed.

Lemma markdown_files_app (v : list (TFile * string)) (f : TFile) (text : string) :
  extension f = "md" ->
  markdown_files (v ++ [(f, text)]) = (markdown_files v ++ [f])%list.
Proof.
  intros Hext. unfold markdown_files. rewrite map_app, filter_app.
  cbn [map filter fst]. rewrite Hext. reflexivity.
Qed.

(** X13.  The report is itself a Markdown note of the vault: for every
    clock, the file made at the path of the report has the extension [md]
    and the prefix with the date as its title, so after a click that wrote
    a report the vault lists one Markdown file more, the report, which
    later clicks may sample. *)
Theorem report_joins_the_notes (E : Engine) (host : Host) (w : World E) :
  vault (snd (onRibbonClick E host w)) <> vault w ->
  markdown_files (vault (snd (onRibbonClick E host w)))
  = (markdown_files (vault w)
     ++ [ {| path := "Note Connections Analysis " ++ iso_date (now host) ++ ".md";
             basename := "Note Connections Analysis " ++ iso_date (now host);
             extension := "md" |} ])%list.
Proof.
  intros Hwritten.
  destruct (click_keeps_vault_cases E host w) as [Hsame | [text Hadded]];
    [contradiction|].
  rewrite Hadded, report_file. apply markdown_files_app. reflexivity.
Qed.

(* ===================================================================== *)
(** * The settings *)
(* ===================================================================== *)

(** X14.  The key typed into the settings tab survives a restart: after
    the [onChange] handler has run with a value, loading the plugin again
    gives that value as the stored key, whatever was stored before, and
    the tab shows it in its one text field; the runs' world is otherwise
    untouched. *)
Theorem typed_key_survives_restart (E : Engine) (value : string) (p : PluginInstance E)
        (containerEl : list TextSetting) :
  let restarted := onload (onChange value p) in
  settings (world restarted) = {| apiKey := value |}
  /\ loadSettings (data restarted) = {| apiKey := value |}
  /\ map field_value (display restarted containerEl) = [value]
  /\ vault (world restarted) = vault (world p)
  /\ trace (world restarted) = trace (world p).
Proof.
  intros restarted. subst restarted. unfold onload, onChange, saveSettings, display.
  cbn. repeat split; reflexivity.
Qed.

Lemma loadSettings_without_key (saved : option SavedData) :
  match saved with
  | Some {| saved_apiKey := Some k |} => k = EmptyString
  | _ => True
  end ->
  apiKey (loadSettings saved) = EmptyString.
Proof.
  destruct saved as [[[k|]]|]; cbn; intros H; [exact H | reflexivity | reflexivity].
Qed.

(** X15.  Before a key has been saved, a click only asks for it: when the
    store has no blob, or a blob without the key, or with the empty key,
    the first click after loading adds the key notice to the trace and
    nothing else, and touches neither the vault nor the store. *)
Theorem first_click_asks_for_key (E : Engine) (host : Host) (p : PluginInstance E) :
  data p = None
  \/ data p = Some {| saved_apiKey := None |}
  \/ data p = Some {| saved_apiKey := Some EmptyString |} ->
  let after := click host (onload p) in
  trace (world after)
  = (trace (world p)
     ++ [EvNotice "Please set your OpenAI API key in the plugin settings"])%list
  /\ vault (world after) = vault (world p)
  /\ data after = data p.
Proof.
  intros Hstore after. subst after. unfold click, onload. cbn [world data].
  assert (Hkey : falsy (apiKey (settings (set_settings (loadSettings (data p)) (world p))))
                 = true).
  { apply falsy_true_iff. cbn [settings set_settings].
    destruct Hstore as [H | [H | H]]; rewrite H; reflexivity. }
  rewrite (run_without_key E host _ Hkey).
  cbn [snd world_after trace vault set_settings]. repeat split; reflexivity.
Qed.

(** X16.  The key that is typed is the key that is sent: after the
    [onChange] handler has run with a value that is not empty, a click
    passes the key check, and every request it makes has that value, as
    typed, after [Bearer ] in its Authorization header. *)
Theorem typed_key_is_sent (E : Engine) (host : Host) (value : string)
        (p : PluginInstance E) :
  value <> EmptyString ->
  exists evs,
    trace (world (click host (onChange value p)))
    = (trace (world p) ++ EvGetMarkdownFiles :: evs)%list
    /\ forall req,
         In (EvFetch req) evs ->
         headers req = [ ("Authorization", "Bearer " ++ value);
                         ("Content-Type", "application/json") ].
Proof.
  intros Hvalue. unfold click, onChange, saveSettings. cbn [world data].
  set (w := set_settings {| apiKey := value |} (world p)).
  assert (Hkey : falsy (apiKey (settings w)) = false)
    by (apply falsy_false_iff; exact Hvalue).
  destruct (run_with_key E host w Hkey) as (v & g & evs & Hrun & Hfetch).
  rewrite Hrun. cbn [snd world_after trace]. exists evs. split; [reflexivity|].
  intros req Hin.
  assert (Hin' : In (EvFetch req) (filter is_fetch evs))
    by (apply filter_In; split; [exact Hin | reflexivity]).
  destruct Hfetch as [Hnone | [noteContents Hone]].
  - rewrite Hnone in Hin'. destruct Hin'.
  - rewrite Hone in Hin'. destruct Hin' as [Heq | []]. inversion Heq. reflexivity.
Qed.

(* ===================================================================== *)
(** * What the key reaches *)
(* ===================================================================== *)

Lemma reply_same_answer (host : Host) (k1 k2 : string) (noteContents : list string) :
  (forall content,
      transport host (completion_request k1 content)
      = transport host (completion_request k2 content)) ->
  reply host k1 noteContents = reply host k2 noteContents.
Proof. intros Hsame. unfold reply. rewrite Hsame. reflexivity. Qed.

Lemma redact_request (k1 k2 content : string) :
  redact (EvFetch (completion_request k1 content))
  = redact (EvFetch (completion_request k2 content)).
Proof. reflexivity. Qed.

Lemma redact_reads (notes : list TFile) : map redact (map EvRead notes) = map EvRead notes.
Proof. induction notes as [|f rest IH]; [reflexivity|]. cbn. rewrite IH. reflexivity. Qed.

(** X17.  The key reaches nothing but the Authorization header: two
    clicks that differ only in the stored key (neither empty), on a
    transport whose answer does not depend on the key, sample and read
    the same notes, show the same notices, send the same request apart
    from that header, and leave the same vault. *)
Theorem key_only_in_authorization (E : Engine) (host : Host) (w : World E)
        (k1 k2 : string) :
  k1 <> EmptyString ->
  k2 <> EmptyString ->
  (forall content,
      transport host (completion_request k1 content)
      = transport host (completion_request k2 content)) ->
  let w1 := snd (onRibbonClick E host (set_settings {| apiKey := k1 |} w)) in
  let w2 := snd (onRibbonClick E host (set_settings {| apiKey := k2 |} w)) in
  vault w1 = vault w2
  /\ map redact (trace w1) = map redact (trace w2).
Proof.
  intros Hk1 Hk2 Hsame w1 w2. subst w1 w2.
  set (u1 := set_settings {| apiKey := k1 |} w).
  set (u2 := set_settings {| apiKey := k2 |} w).
  assert (Hkey1 : falsy (apiKey (settings u1)) = false) by (apply falsy_false_iff; exact Hk1).
  assert (Hkey2 : falsy (apiKey (settings u2)) = false) by (apply falsy_false_iff; exact Hk2).
  destruct (click_outcome E host u1)
    as [ Hno | _ Hnone | e _ Hsome Hreads | noteContents e _ Hsome Hreads Hreply
         | noteContents analysis _ Hsome Hreads Hreply Htaken
         | noteContents analysis _ Hsome Hreads Hreply Hfree ].
  - rewrite Hno in Hkey1. discriminate.
  - rewrite (run_without_notes E host u2 Hkey2 Hnone). split; reflexivity.
  - rewrite (run_read_failure E host u2 e Hkey2 Hsome Hreads). split; reflexivity.
  - change (apiKey (settings u1)) with k1 in Hreply.
    rewrite (reply_same_answer host k1 k2 _ Hsame) in Hreply.
    rewrite (run_reply_failure E host u2 noteContents e Hkey2 Hsome Hreads Hreply).
    split; [reflexivity|].
    cbn [snd world_after trace].
    rewrite !map_app. cbn [map].
    rewrite (redact_request k1 k2). reflexivity.
  - change (apiKey (settings u1)) with k1 in Hreply.
    rewrite (reply_same_answer host k1 k2 _ Hsame) in Hreply.
    rewrite (run_name_taken E host u2 noteContents analysis Hkey2 Hsome Hreads Hreply Htaken).
    split; [reflexivity|].
    cbn [snd world_after trace].
    rewrite !map_app. cbn [map].
    rewrite (redact_request k1 k2). reflexivity.
  - change (apiKey (settings u1)) with k1 in Hreply.
    rewrite (reply_same_answer host k1 k2 _ Hsame) in Hreply.
    rewrite (run_success E host u2 noteContents analysis Hkey2 Hsome Hreads Hreply Hfree).
    split; [reflexivity|].
    cbn [snd world_after trace].
    rewrite !map_app. cbn [map].
    rewrite (redact_request k1 k2). reflexivity.
Qed.

(* ===================================================================== *)
(** * The further theorems at sample inputs *)
(* ===================================================================== *)

Lemma sample_click_writes :
  vault (snd (onRibbonClick insertion_engine Sample.host (Sample.world "sk-test" Sample.files)))
  <> vault (Sample.world "sk-test" Sample.files).
Proof.
  intros H. apply (f_equal (@List.length (TFile * string))) in H.
  vm_compute in H. discriminate.
Qed.

Lemma report_needs_answer_witness :
  exists noteContents response data,
    transport Sample.host (completion_request "sk-test" (prompt noteContents)) = inr response
    /\ ok response = true
    /\ json response = inr data
    /\ content_read_throws data = false.
Proof.
  exact (proj2 (report_needs_answer insertion_engine Sample.host
                  (Sample.world "sk-test" Sample.files) sample_click_writes)).
Defined.

Lemma getRandomNotes_takes_all_witness :
  exists sample w',
    getRandomNotes insertion_engine 10 (Sample.world "sk-test" Sample.files) = (inr sample, w')
    /\ Permutation sample
         [TFile_of_path "A.md"; TFile_of_path "notes/B.md"; TFile_of_path "C.md"].
Proof.
  apply (getRandomNotes_takes_all insertion_engine (Sample.world "sk-test" Sample.files) 10).
  - exact insertion_engine_ok.
  - vm_compute. discriminate.
Defined.

Lemma getRandomNotes_negative_count_witness :
  let w := Sample.world "sk-test" Sample.files in
  exists sample w',
    getRandomNotes insertion_engine (-2) w = (inr sample, w')
    /\ Z.of_nat (List.length sample) = 1%Z
    /\ forall f, In f sample -> In f (markdown_files (vault w)).
Proof.
  apply (getRandomNotes_negative_count insertion_engine
           (Sample.world "sk-test" Sample.files) (-2)).
  - exact insertion_engine_ok.
  - lia.
Defined.

Lemma click_reads_at_most_ten_witness :
  let w := Sample.world "sk-test" Sample.files in
  exists evs notes,
    trace (snd (onRibbonClick insertion_engine Sample.host w)) = (trace w ++ evs)%list
    /\ filter is_read evs = map EvRead notes
    /\ List.length notes <= 10
    /\ List.length notes <= 3
    /\ (forall f, In f notes -> In f (markdown_files (vault w)))
    /\ (NoDup (markdown_files (vault w)) -> NoDup notes).
Proof.
  apply (click_reads_at_most_ten insertion_engine Sample.host
           (Sample.world "sk-test" Sample.files)).
  exact insertion_engine_ok.
Defined.

Lemma failed_read_sends_nothing_witness :
  let w := Sample.world "sk-test" Sample.files in
  let notes := [TFile_of_path "notes/B.md"; TFile_of_path "C.md"; TFile_of_path "A.md"] in
  exists evs e',
    trace (snd (onRibbonClick insertion_engine SampleFaults.unreadable w))
    = (trace w ++ evs)%list
    /\ filter is_read evs = map EvRead notes
    /\ filter is_fetch evs = []
    /\ filter is_create evs = []
    /\ In (EvNotice ("Error: " ++ message e')) evs
    /\ vault (snd (onRibbonClick insertion_engine SampleFaults.unreadable w)) = vault w.
Proof.
  apply (failed_read_sends_nothing insertion_engine SampleFaults.unreadable
           (Sample.world "sk-test" Sample.files)
           [TFile_of_path "notes/B.md"; TFile_of_path "C.md"; TFile_of_path "A.md"]
           (TFile_of_path "notes/B.md") (new_Error "EACCES")).
  - discriminate.
  - vm_compute. reflexivity.
  - left. reflexivity.
  - reflexivity.
Defined.

Lemma taken_name_blocks_report_witness :
  let old := (TFile_of_path "Note Connections Analysis 2026-11-02.md", "kept") in
  let w := Sample.world "sk-test" (Sample.files ++ [old]) in
  vault (snd (onRibbonClick insertion_engine Sample.host w)) = vault w
  /\ exists evs,
       trace (snd (onRibbonClick insertion_engine Sample.host w)) = (trace w ++ evs)%list
       /\ filter is_open evs = []
       /\ (forall p text, In (EvCreate p text) evs ->
             In (EvNotice "Error: File already exists.") evs).
Proof.
  apply (taken_name_blocks_report insertion_engine Sample.host
           (Sample.world "sk-test"
              (Sample.files
               ++ [(TFile_of_path "Note Connections Analysis 2026-11-02.md", "kept")]))
           (TFile_of_path "Note Connections Analysis 2026-11-02.md", "kept")).
  - apply in_or_app. right. left. reflexivity.
  - vm_compute. reflexivity.
Defined.

Lemma second_click_same_day_witness :
  let first := snd (onRibbonClick insertion_engine Sample.host
                      (Sample.world "sk-test" Sample.files)) in
  vault (snd (onRibbonClick insertion_engine SampleFaults.evening_host first)) = vault first.
Proof.
  apply (second_click_same_day insertion_engine Sample.host SampleFaults.evening_host
           (Sample.world "sk-test" Sample.files)).
  - exact sample_click_writes.
  - repeat split; reflexivity.
Defined.

Lemma any_content_is_written_witness :
  let host := Sample.answering 200 Sample.bare_completion in
  let w := Sample.world "sk-test" Sample.files in
  let w' := snd (onRibbonClick insertion_engine host w) in
  exists notes before evs,
    fst (getRandomNotes insertion_engine 10 w) = inr notes
    /\ formatAnalysis notes JUndefined = before ++ "undefined" ++ Str.LF
    /\ vault w'
       = (vault w ++ [(TFile_of_path (analysis_path (now host)),
                       (before ++ "undefined" ++ Str.LF)%string)])%list
    /\ trace w' = (trace w ++ evs ++ [EvOpen (TFile_of_path (analysis_path (now host)))])%list
    /\ filter is_console evs = [].
Proof.
  apply (any_content_is_written insertion_engine
           (Sample.answering 200 Sample.bare_completion)
           (Sample.world "sk-test" Sample.files)
           {| status := 200; json := inr Sample.bare_completion |}
           Sample.bare_completion JUndefined).
  - exact insertion_engine_ok.
  - discriminate.
  - vm_compute. discriminate.
  - intros f. reflexivity.
  - intros req. reflexivity.
  - reflexivity.
  - reflexivity.
  - reflexivity.
  - reflexivity.
  - intros entry Hin. vm_compute in Hin.
    repeat (destruct Hin as [Hentry | Hin]; [subst entry; vm_compute; discriminate|]).
    destruct Hin.
Defined.

Lemma report_and_prompt_agree_witness :
  let w := Sample.world "sk-test" Sample.files in
  exists notes texts analysis evs,
    fst (getRandomNotes insertion_engine 10 w) = inr notes
    /\ Forall2 (fun file text => read_outcome Sample.host (vault w) file = inr text)
               notes texts
    /\ trace (snd (onRibbonClick insertion_engine Sample.host w)) = (trace w ++ evs)%list
    /\ filter is_fetch evs = [EvFetch (completion_request "sk-test" (prompt texts))]
    /\ filter is_create evs
       = [EvCreate (analysis_path Sample.clock) (formatAnalysis notes analysis)].
Proof.
  exact (report_and_prompt_agree insertion_engine Sample.host
           (Sample.world "sk-test" Sample.files) sample_click_writes).
Defined.

Lemma report_joins_the_notes_witness :
  let w := Sample.world "sk-test" Sample.files in
  markdown_files (vault (snd (onRibbonClick insertion_engine Sample.host w)))
  = [ TFile_of_path "A.md"; TFile_of_path "notes/B.md"; TFile_of_path "C.md";
      {| path := "Note Connections Analysis 2026-11-02.md";
         basename := "Note Connections Analysis 2026-11-02";
         extension := "md" |} ].
Proof.
  exact (report_joins_the_notes insertion_engine Sample.host
           (Sample.world "sk-test" Sample.files) sample_click_writes).
Defined.

Lemma first_click_asks_for_key_witness :
  let p := SampleFaults.instance "stale" in
  let after := click Sample.host (onload p) in
  trace (world after) = [EvNotice "Please set your OpenAI API key in the plugin settings"]
  /\ vault (world after) = Sample.files
  /\ data after = None.
Proof.
  apply (first_click_asks_for_key insertion_engine Sample.host (SampleFaults.instance "stale")).
  left. reflexivity.
Defined.

Lemma typed_key_is_sent_witness :
  exists evs,
    trace (world (click Sample.host (onChange "sk-new" (SampleFaults.instance EmptyString))))
    = EvGetMarkdownFiles :: evs
    /\ forall req,
         In (EvFetch req) evs ->
         headers req = [ ("Authorization", "Bearer sk-new");
                         ("Content-Type", "application/json") ].
Proof.
  apply (typed_key_is_sent insertion_engine Sample.host "sk-new"
           (SampleFaults.instance EmptyString)).
  discriminate.
Defined.

Lemma key_only_in_authorization_witness :
  let w := Sample.world EmptyString Sample.files in
  let w1 := snd (onRibbonClick insertion_engine Sample.host
                   (set_settings {| apiKey := "sk-a" |} w)) in
  let w2 := snd (onRibbonClick insertion_engine Sample.host
                   (set_settings {| apiKey := "sk-b" |} w)) in
  vault w1 = vault w2 /\ map redact (trace w1) = map redact (trace w2).
Proof.
  apply (key_only_in_authorization insertion_engine Sample.host
           (Sample.world EmptyString Sample.files) "sk-a" "sk-b").
  - discriminate.
  - discriminate.
  - intros content. reflexivity.
Defined.
